(** * Aircraft-availability timeline: the temporal aggregation and overlay engine

    A shallow embedding of the engine that every [App*.js] variant of the
    repository carries inline: the calendar grid ([buildWeeks], [getWeeks]),
    the time-interval arithmetic of [renderBlocks], the weather index
    ([metarLookup]), the category test ([blockHasCategory],
    [blockMatchesFilters]) and the temperature bands ([tempToColor]).

    Conventions of the embedding.
    - A JS [Date] is a calendar day, counted in days since 1970-01-01.  The
      dates the engine handles are the local midnights made by
      [new Date(y, m, d)] and moved by [setDate(getDate() + k)]; the time zone
      is taken to be one where [toISOString().slice(0,10)] names that same
      calendar day (true of the US zones the data comes from).
    - Integer-valued JS numbers are [Z]; fractional hours and pixel sizes are
      exact rationals [Q].
    - A result of type [option _] is [None] where the JS evaluation leaves the
      modelled fragment: a clock code that is not a string of decimal digits,
      or a property read on [undefined] (a [TypeError]). *)

From Stdlib Require Import ZArith QArith Lia Lqa Ascii String.
From Equations Require Import Equations.
From stdpp Require Import base option list gmap strings.

#[local] Open Scope string_scope.
#[local] Open Scope list_scope.
#[local] Open Scope Z_scope.

(** ** JavaScript primitives used by the engine *)

Module JS.

(** [s.slice(a, b)] for [0 <= a <= b]; [slice_from] is [s.slice(a)]. *)
Definition slice (s : string) (a b : nat) : string :=
  String.substring a (Nat.min b (String.length s) - a) s.

Definition slice_from (s : string) (a : nat) : string :=
  String.substring a (String.length s - a) s.

Definition digit_of (c : ascii) : option Z :=
  let n := Z.of_nat (Ascii.nat_of_ascii c) in
  if (48 <=? n) && (n <=? 57) then Some (n - 48) else None.

Fixpoint digits_value (s : string) (acc : Z) : option Z :=
  match s with
  | EmptyString => Some acc
  | String c s' =>
      match digit_of c with
      | Some d => digits_value s' (10 * acc + d)
      | None => None
      end
  end.

(** Unary plus on a string of decimal digits ([+""] is [0] in JS).  Any
    other string is outside the modelled fragment. *)
Definition to_number (s : string) : option Z := digits_value s 0.

(** [Math.floor(a / b)] on integers with [b > 0]. *)
Definition floor_div (a b : Z) : Z := a / b.

(** JS [%] truncates towards zero. *)
Definition rem (a b : Z) : Z := Z.rem a b.

(** [a < b] on numbers. *)
Definition lt_bool (a b : Q) : bool := negb (Qle_bool b a).

(** [l.some(f)], with [f] possibly leaving the modelled fragment. *)
Fixpoint someM {A : Type} (f : A → option bool) (l : list A) : option bool :=
  match l with
  | [] => Some false
  | x :: l' => b ← f x; if b : bool then Some true else someM f l'
  end.

(** A nullable JSON number, as read from the weather dataset. *)
Inductive value : Type :=
| Null
| Undefined
| Num (q : Q).

End JS.

(** ** Calendar days *)

Module Date.

(** Days since 1970-01-01 (a Thursday). *)
Definition t : Type := Z.

(** [getDay()]: Sunday is 0. *)
Definition getDay (d : t) : Z := (d + 4) mod 7.

(** [d.setDate(d.getDate() + k)] *)
Definition addDays (d : t) (k : Z) : t := d + k.

(** Proleptic Gregorian conversion, both ways. *)
Definition of_civil (y m d : Z) : t :=
  let y' := if m <=? 2 then y - 1 else y in
  let era := y' / 400 in
  let yoe := y' - era * 400 in
  let mp := if 2 <? m then m - 3 else m + 9 in
  let doy := (153 * mp + 2) / 5 + d - 1 in
  let doe := yoe * 365 + yoe / 4 - yoe / 100 + doy in
  era * 146097 + doe - 719468.

Definition to_civil (n : t) : Z * Z * Z :=
  let z := n + 719468 in
  let era := z / 146097 in
  let doe := z - era * 146097 in
  let yoe := (doe - doe / 1460 + doe / 36524 - doe / 146096) / 365 in
  let doy := doe - (365 * yoe + yoe / 4 - yoe / 100) in
  let mp := (5 * doy + 2) / 153 in
  let d := doy - (153 * mp + 2) / 5 + 1 in
  let m := if mp <? 10 then mp + 3 else mp - 9 in
  let y := yoe + era * 400 in
  (if m <=? 2 then y + 1 else y, m, d).

(** [new Date(y, m, d)]: the month is zero-based. *)
Definition make (y m d : Z) : t := of_civil y (m + 1) d.

Definition digit_char (n : Z) : ascii :=
  Ascii.ascii_of_nat (48 + Z.to_nat (n mod 10)).

Definition pad2 (n : Z) : string :=
  String (digit_char (n / 10)) (String (digit_char n) EmptyString).

Definition pad4 (n : Z) : string :=
  String (digit_char (n / 1000)) (String (digit_char (n / 100)) (pad2 n)).

(** [d.toISOString().slice(0,10)], for years 0000 to 9999. *)
Definition isoKey (n : t) : string :=
  let '(y, m, d) := to_civil n in
  pad4 y +:+ "-" +:+ pad2 m +:+ "-" +:+ pad2 d.

End Date.

(** ** Temperature bands *)

Definition tempToColor (temp : JS.value) : string :=
  match temp with
  | JS.Null | JS.Undefined => "transparent"
  | JS.Num t =>
      if Qle_bool t (-30) then "#2c003e"
      else if Qle_bool t (-10) then "#0033cc"
      else if Qle_bool t 0 then "#33ccff"
      else if Qle_bool t 10 then "#66ffcc"
      else if Qle_bool t 20 then "#ffff99"
      else if Qle_bool t 30 then "#ffcc00"
      else "#ff3300"
  end.

(** The seven band colours, coldest first. *)
Definition temperature_bands : list string :=
  ["#2c003e"; "#0033cc"; "#33ccff"; "#66ffcc"; "#ffff99"; "#ffcc00"; "#ff3300"].

(** ** Day background by weekday: [getBg] *)

Definition getBg (d : Date.t) : string :=
  let wd := Date.getDay d in
  if (wd =? 2) || (wd =? 4) then "#F5F5F5"
  else if wd =? 6 then "#E6F9E6"
  else if wd =? 0 then "#E6F0FF"
  else "transparent".

(** ** Datasets and constants *)

(** One observation of [alb_metar.json] (the fields the engine reads). *)
Record WeatherRecord : Type := {
  local_time : string;
  flight_category : string;
  temp_C : JS.value
}.

(** One aircraft of [aircraft_activity.json]: ISO date to [[start, end]]
    pairs of clock codes. *)
Record Aircraft : Type := {
  blocksByDate : gmap string (list (string * string))
}.

Definition tailsOrder : list string := ["N65620"; "N854GW"; "N756VH"].

Definition tailColors : gmap string string :=
  <["N65620" := "#E63946"]> (<["N854GW" := "#2A9D8F"]> (<["N756VH" := "#264653"]> ∅)).

Definition flightCategoryColor : gmap string string :=
  <["LIFR" := "#FF00FF"]> (<["IFR" := "#FF0000"]>
    (<["MVFR" := "#0000FF"]> (<["VFR" := "#00FF00"]> ∅))).

Definition START_DATE : Date.t := Date.make 2024 6 1.
Definition END_DATE : Date.t := Date.make 2025 7 1.
Definition DEFAULT_HOUR_PX : Q := 4%Q.

(** ** Calendar Grid Builder: [buildWeeks] *)

(** The inner [for (let i = 0; i < 7; i++)] loop with [n] rounds to go:
    [wk.push(new Date(cur)); cur.setDate(cur.getDate() + 1)].  Each push
    stores a fresh copy, so later moves of [cur] leave the week untouched. *)
Fixpoint pushDays (n : nat) (cur : Date.t) (wk : list Date.t) : list Date.t * Date.t :=
  match n with
  | O => (wk, cur)
  | S n' => pushDays n' (Date.addDays cur 1) (wk ++ [cur])
  end.

(** The outer [while (cur <= end)] loop. *)
Equations? weeksLoop (end_ cur : Date.t) (weeks : list (list Date.t)) :
    list (list Date.t) by wf (Z.to_nat (end_ - cur + 1)) lt :=
  weeksLoop end_ cur weeks with decide (cur <= end_) => {
    | left _ := weeksLoop end_ (snd (pushDays 7 cur [])) (weeks ++ [fst (pushDays 7 cur [])]);
    | right _ := weeks }.
Proof. cbn. unfold Date.addDays. lia. Qed.

Definition buildWeeks (start end_ : Date.t) : list (list Date.t) :=
  let first := Date.addDays start (- JS.rem (Date.getDay start + 6) 7) in
  weeksLoop end_ first [].

(** ** Calendar Grid Builder, first variant: [getWeeks] (part_004) *)

Module Part004.

(** [for (let d = new Date(first); d <= end; d.setDate(d.getDate() + 1))]
    carrying the week under construction and the finished weeks. *)
Equations? getWeeksLoop (end_ d : Date.t) (week : list Date.t)
    (weeks : list (list Date.t)) : list (list Date.t) * list Date.t
    by wf (Z.to_nat (end_ - d + 1)) lt :=
  getWeeksLoop end_ d week weeks with decide (d <= end_) => {
    | left _ with decide (length (week ++ [d]) = 7%nat) => {
        | left _ := getWeeksLoop end_ (Date.addDays d 1) [] (weeks ++ [week ++ [d]]);
        | right _ := getWeeksLoop end_ (Date.addDays d 1) (week ++ [d]) weeks };
    | right _ := (weeks, week) }.
Proof. all: unfold Date.addDays; lia. Qed.

(** The unused [getAllDates(start, end)] call of the source is dropped. *)
Definition getWeeks (start end_ : Date.t) : list (list Date.t) :=
  let dow := Date.getDay start in
  let offset := JS.rem (dow + 6) 7 in
  let first := Date.addDays start (- offset) in
  let '(weeks, week) := getWeeksLoop end_ first [] [] in
  if (0 <? length week)%nat then weeks ++ [week] else weeks.

(** [getAllDates(start, end)]:
    [for (let d = new Date(start); d <= end; d.setDate(d.getDate() + 1))
       dates.push(new Date(d))]. *)
Equations? getAllDatesLoop (end_ d : Date.t) (dates : list Date.t) : list Date.t
    by wf (Z.to_nat (end_ - d + 1)) lt :=
  getAllDatesLoop end_ d dates with decide (d <= end_) => {
    | left _ := getAllDatesLoop end_ (Date.addDays d 1) (dates ++ [d]);
    | right _ := dates }.
Proof. unfold Date.addDays. lia. Qed.

Definition getAllDates (start end_ : Date.t) : list Date.t :=
  getAllDatesLoop end_ start [].

(** The [bgColors] table, keyed by [getDay()], and the background of
    [dayCellBase]: [bgColors[date.getDay()] || 'transparent']. *)
Definition bgColors : gmap Z string :=
  <[1 := "#f5f5f5"]> (<[3 := "#f5f5f5"]> (<[5 := "#e6f9e6"]> (<[0 := "#e6f0ff"]> ∅))).

Definition dayCellBackground (date : Date.t) : string :=
  default "transparent" (bgColors !! Date.getDay date).

(** The [toggle] of the hidden-aircraft list:
    [h.includes(tail) ? h.filter(x => x !== tail) : [...h, tail]]. *)
Definition toggle (tail : string) (h : list string) : list string :=
  if decide (tail ∈ h) then filter (λ x, x ≠ tail) h else h ++ [tail].

(** [parseInt(s, 10)] on a non-empty string of decimal digits; other
    strings are outside the modelled fragment. *)
Definition parseInt10 (s : string) : option Z :=
  if (0 <? String.length s)%nat then JS.to_number s else None.

(** The pixels of one block of the day cell:
    [leftPx = (startMin / 1440) * 48] and
    [widthPx = ((endMin - startMin) / 1440) * 48]. *)
Definition blockPx (block : string * string) : option (Q * Q) :=
  let '(start, end_) := block in
  sh ← parseInt10 (JS.slice start 0 2);
  sm ← parseInt10 (JS.slice_from start 2);
  let startMin := sh * 60 + sm in
  eh ← parseInt10 (JS.slice end_ 0 2);
  em ← parseInt10 (JS.slice_from end_ 2);
  let endMin := eh * 60 + em in
  let leftPx := (inject_Z startMin / 1440 * 48)%Q in
  let widthPx := (inject_Z (endMin - startMin) / 1440 * 48)%Q in
  Some (leftPx, widthPx).

(** The blocks of one aircraft in a day cell:
    [if (hidden.includes(tail)) return null] (nothing is drawn), otherwise
    [(info.blocksByDate[dKey] || []).map(...)]. *)
Definition renderTail (hidden : list string) (tail : string) (info : Aircraft)
    (dKey : string) : option (list (Q * Q)) :=
  if decide (tail ∈ hidden) then Some []
  else mapM blockPx (default [] (blocksByDate info !! dKey)).

End Part004.

(** ** Weather Join Index: [metarLookup] *)

(** [new Date(s).getHours()] for a local timestamp [YYYY-MM-DDTHH:MM] or
    [YYYY-MM-DDTHH:MM:SS], with [T] or a blank between date and time (no zone
    suffix, so it is read as local time): the [HH] field.  [None] stands for
    [NaN], the hour of an [Invalid Date]; timestamps of any other shape are
    taken to be invalid. *)
Definition two_digits (s : string) : option Z :=
  if (String.length s =? 2)%nat then JS.to_number s else None.

Definition is_sep (s : string) (i : nat) (c : string) : bool :=
  String.eqb (JS.slice s i (S i)) c.

Definition getHours (s : string) : option Z :=
  let len := String.length s in
  if ((len =? 16)%nat || ((len =? 19)%nat && is_sep s 16 ":"))
     && is_sep s 4 "-" && is_sep s 7 "-" && (is_sep s 10 "T" || is_sep s 10 " ")
     && is_sep s 13 ":"
  then
    _ ← (if (String.length (JS.slice s 0 4) =? 4)%nat then JS.to_number (JS.slice s 0 4) else None);
    _ ← two_digits (JS.slice s 5 7);
    _ ← two_digits (JS.slice s 8 10);
    h ← two_digits (JS.slice s 11 13);
    mi ← two_digits (JS.slice s 14 16);
    _ ← (if (len =? 19)%nat then two_digits (JS.slice s 17 19) else Some 0);
    if (h <? 24) && (mi <? 60) then Some h else None
  else None.

(** The body of [metarData.forEach]:
    [m[key] = m[key] || {}; m[key][hr] = r]. *)
Definition metarLookup_step (m : gmap string (gmap (option Z) WeatherRecord))
    (r : WeatherRecord) : gmap string (gmap (option Z) WeatherRecord) :=
  let key := JS.slice (local_time r) 0 10 in
  let hr := getHours (local_time r) in
  <[key := <[hr := r]> (default ∅ (m !! key))]> m.

Definition metarLookup (metarData : list WeatherRecord) :
    gmap string (gmap (option Z) WeatherRecord) :=
  foldl metarLookup_step ∅ metarData.

(** [metarLookup[dKey]?.[hr]] *)
Definition lookupRecord (m : gmap string (gmap (option Z) WeatherRecord))
    (dKey : string) (hr : option Z) : option WeatherRecord :=
  m !! dKey ≫= (λ day, day !! hr).

(** The (date, hour) bucket a record is filed under. *)
Definition bucket (r : WeatherRecord) : string * option Z :=
  (JS.slice (local_time r) 0 10, getHours (local_time r)).

(** Number of (date, hour) entries of an index. *)
Definition entryCount (m : gmap string (gmap (option Z) WeatherRecord)) : nat :=
  map_fold (λ _ day n, (size day + n)%nat) 0%nat m.

(** ** Clock codes *)

(** [+s.slice(0,2)] and [+s.slice(2)] *)
Definition parseCode (s : string) : option (Z * Z) :=
  h ← JS.to_number (JS.slice s 0 2);
  m ← JS.to_number (JS.slice_from s 2);
  Some (h, m).

(** [h*60 + m] and [h + m/60] *)
Definition minuteOfDay (hm : Z * Z) : Z := fst hm * 60 + snd hm.
Definition fracHour (hm : Z * Z) : Q := (inject_Z (fst hm) + inject_Z (snd hm) / 60)%Q.

(** A well-formed clock code: four decimal digits, [HH] below 24 and [MM]
    below 60. *)
Definition wf_code (s : string) : Prop :=
  String.length s = 4%nat ∧
  ∃ h m, parseCode s = Some (h, m) ∧ 0 <= h < 24 ∧ 0 <= m < 60.

(** What [renderBlocks] returns per block: [null] or one [<div>] with its
    [left], [width] (in px) and [backgroundColor]. *)
Inductive element : Type :=
| Null
| Div (left width : Q) (backgroundColor : option string).

(** One hour cell of the weather rows; [seg_left] is [None] for [NaN]. *)
Record hourSegment : Type := {
  seg_left : option Q;
  seg_width : Q;
  seg_color : option string
}.

(** ** The full engine: part_005 (the same code is in App (24).js and in the
    second half of App (09).js) *)

Module Part005.

(** [toggleAC] and [toggleCat]: [v => ({ ...v, [t]: !v[t] })]; a missing
    key reads as [undefined], whose negation is [true]. *)
Definition toggleAC (t : string) (v : gmap string bool) : gmap string bool :=
  <[t := negb (default false (v !! t))]> v.

Definition toggleCat (c : string) (f : gmap string bool) : gmap string bool :=
  <[c := negb (default false (f !! c))]> f.

(** One step of the [for (let t = sMin; t < eMin; t += 60)] body: the date
    key and hour that are looked up. *)
Definition hourBucket (date : Date.t) (t : Z) : string * Z :=
  let hr := JS.floor_div t 60 in
  let dKey := Date.isoKey date in
  if 24 <=? hr
  then (Date.isoKey (Date.addDays date 1), JS.rem hr 24)
  else (dKey, hr).

(** [rec && rec.flight_category === cat] *)
Definition matchAt (metarLookup : gmap string (gmap (option Z) WeatherRecord))
    (date : Date.t) (cat : string) (t : Z) : bool :=
  match lookupRecord metarLookup (hourBucket date t).1 (Some (hourBucket date t).2) with
  | Some rec => String.eqb (flight_category rec) cat
  | None => false
  end.

Equations? categoryLoop (metarLookup : gmap string (gmap (option Z) WeatherRecord))
    (date : Date.t) (cat : string) (eMin t : Z) : bool
    by wf (Z.to_nat (eMin - t)) lt :=
  categoryLoop metarLookup date cat eMin t with decide (t < eMin) => {
    | left _ :=
        if matchAt metarLookup date cat t then true
        else categoryLoop metarLookup date cat eMin (t + 60);
    | right _ := false }.
Proof. lia. Qed.

Definition blockHasCategory (metarLookup : gmap string (gmap (option Z) WeatherRecord))
    (date : Date.t) (start end_ : string) (cat : string) : option bool :=
  s ← parseCode start;
  let sMin := minuteOfDay s in
  e ← parseCode end_;
  let eMin := minuteOfDay e in
  let eMin := if eMin <=? sMin then eMin + 1440 else eMin in
  Some (categoryLoop metarLookup date cat eMin sMin).

(** The fractional hours [sH], [eH] that [renderBlocks] computes for one
    block, after [if (eH <= sH) eH += 24]. *)
Definition blockHours (start end_ : string) : option (Q * Q) :=
  s ← parseCode start;
  let sH := fracHour s in
  e ← parseCode end_;
  let eH := fracHour e in
  let eH := if Qle_bool eH sH then (eH + 24)%Q else eH in
  Some (sH, eH).

Section Component.
(** The imported datasets and the component state of one render pass. *)
Variable data : gmap string Aircraft.
Variable metarData : list WeatherRecord.
Variable hourPx : Q.
Variable visible : gmap string bool.
Variable showFlightCat showTemp : bool.
Variable catFilters : gmap string bool.

(** The body of [blocks.map(([start,end], i) => ...)].  [Object.entries]
    lists the four category toggles; [some] does not depend on their order. *)
Definition renderBlock (tail : string) (date : Date.t)
    (block : string * string) : option element :=
  let '(start, end_) := block in
  keep ← JS.someM (λ entry : string * bool,
            if entry.2 then blockHasCategory (metarLookup metarData) date start end_ entry.1
            else Some false)
          (map_to_list catFilters);
  if negb keep then Some Null
  else
    h ← blockHours start end_;
    let '(sH, eH) := h in
    Some (Div (sH * hourPx)%Q ((eH - sH) * hourPx)%Q (tailColors !! tail)).

Definition renderBlocks (tail : string) (date : Date.t) : option (list element) :=
  ac ← data !! tail;
  let key := Date.isoKey date in
  let blocks := default [] (blocksByDate ac !! key) in
  mapM (renderBlock tail date) blocks.

(** [visible[t] && renderBlocks(t, d)]: what one aircraft cell shows. *)
Definition aircraftCell (t : string) (d : Date.t) : option (list element) :=
  if default false (visible !! t) then renderBlocks t d else Some [].

(** [showFlightCat && Object.values(records).map(...)] *)
Definition flightCategoryRow (d : Date.t) : list hourSegment :=
  let records := default ∅ (metarLookup metarData !! Date.isoKey d) in
  if showFlightCat then
    (λ rec : WeatherRecord,
       {| seg_left := (λ h, inject_Z h * hourPx)%Q <$> getHours (local_time rec);
          seg_width := hourPx;
          seg_color := flightCategoryColor !! flight_category rec |})
    <$> (map_to_list records).*2
  else [].

(** [showTemp && Object.values(records).map(...)] *)
Definition temperatureRow (d : Date.t) : list hourSegment :=
  let records := default ∅ (metarLookup metarData !! Date.isoKey d) in
  if showTemp then
    (λ rec : WeatherRecord,
       {| seg_left := (λ h, inject_Z h * hourPx)%Q <$> getHours (local_time rec);
          seg_width := hourPx;
          seg_color := Some (tempToColor (temp_C rec)) |})
    <$> (map_to_list records).*2
  else [].
End Component.

End Part005.

(** ** The filter of App (19).js: one pass over the hours for all categories *)

Module App19.

(** [rec && catFilters[rec.flight_category]] *)
Definition matchAt (metarLookup : gmap string (gmap (option Z) WeatherRecord))
    (catFilters : gmap string bool) (date : Date.t) (tMin : Z) : bool :=
  match lookupRecord metarLookup (Part005.hourBucket date tMin).1
          (Some (Part005.hourBucket date tMin).2) with
  | Some rec => default false (catFilters !! flight_category rec)
  | None => false
  end.

Equations? filterLoop (metarLookup : gmap string (gmap (option Z) WeatherRecord))
    (catFilters : gmap string bool) (date : Date.t) (eMin tMin : Z) : bool
    by wf (Z.to_nat (eMin - tMin)) lt :=
  filterLoop metarLookup catFilters date eMin tMin with decide (tMin < eMin) => {
    | left _ :=
        if matchAt metarLookup catFilters date tMin then true
        else filterLoop metarLookup catFilters date eMin (tMin + 60);
    | right _ := false }.
Proof. lia. Qed.

Definition blockMatchesFilters (metarLookup : gmap string (gmap (option Z) WeatherRecord))
    (catFilters : gmap string bool) (date : Date.t) (start end_ : string) : option bool :=
  s ← parseCode start;
  let sMin := minuteOfDay s in
  e ← parseCode end_;
  let eMin := minuteOfDay e in
  let eMin := if eMin <=? sMin then eMin + 1440 else eMin in
  Some (filterLoop metarLookup catFilters date eMin sMin).

(** The fractional hours [sH], [eH] that [renderBlocks] computes for one
    block, after [if (eH <= sH) eH += 24]. *)
Definition blockHours (start end_ : string) : option (Q * Q) :=
  s ← parseCode start;
  let sH := fracHour s in
  e ← parseCode end_;
  let eH := fracHour e in
  let eH := if Qle_bool eH sH then (eH + 24)%Q else eH in
  Some (sH, eH).

Section Component.
Variable data : gmap string Aircraft.
Variable metarData : list WeatherRecord.
Variable hourPx : Q.
Variable visible : gmap string bool.
Variable catFilters : gmap string bool.

Definition renderBlock (tail : string) (date : Date.t)
    (block : string * string) : option element :=
  let '(start, end_) := block in
  keep ← blockMatchesFilters (metarLookup metarData) catFilters date start end_;
  if negb keep then Some Null
  else
    h ← blockHours start end_;
    let '(sH, eH) := h in
    let left := (sH * hourPx)%Q in
    let width := ((eH - sH) * hourPx)%Q in
    Some (Div left width (tailColors !! tail)).

Definition renderBlocks (tail : string) (date : Date.t) : option (list element) :=
  ac ← data !! tail;
  let key := Date.isoKey date in
  let blocks := default [] (blocksByDate ac !! key) in
  mapM (renderBlock tail date) blocks.

Definition aircraftCell (t : string) (d : Date.t) : option (list element) :=
  if default false (visible !! t) then renderBlocks t d else Some [].
End Component.

End App19.

(** ** The unfiltered timeline: part_000 (strict cross-midnight test; the
    same [renderBlocks] is in App (08).js, App (09).js, App (10).js and
    part_001) *)

Module Part000.

(** The fractional hours [sH], [eH] that [renderBlocks] computes for one
    block, after [if (eH < sH) eH += 24]. *)
Definition blockHours (start end_ : string) : option (Q * Q) :=
  s ← parseCode start;
  e ← parseCode end_;
  let sH := fracHour s in
  let eH := fracHour e in
  let eH := if JS.lt_bool eH sH then (eH + 24)%Q else eH in
  Some (sH, eH).

Section Component.
Variable data : gmap string Aircraft.
Variable hourPx : Q.

Definition renderBlock (tail : string) (block : string * string) : option element :=
  let '(start, end_) := block in
  h ← blockHours start end_;
  let '(sH, eH) := h in
  let left := (sH * hourPx)%Q in
  let width := ((eH - sH) * hourPx)%Q in
  Some (Div left width (tailColors !! tail)).

Definition renderBlocks (tail : string) (date : Date.t) : option (list element) :=
  ac ← data !! tail;
  let key := Date.isoKey date in
  let blocks := default [] (blocksByDate ac !! key) in
  mapM (renderBlock tail) blocks.
End Component.

End Part000.

(** ** part_003: the same timeline with [startHour]/[endHour] *)

Module Part003.

(** [startHour], [endHour] after [if (endHour < startHour) endHour += 24]. *)
Definition blockHours (start end_ : string) : option (Q * Q) :=
  s ← parseCode start;
  e ← parseCode end_;
  let startHour := fracHour s in
  let endHour := fracHour e in
  let endHour := if JS.lt_bool endHour startHour then (endHour + 24)%Q else endHour in
  Some (startHour, endHour).

Section Component.
Variable data : gmap string Aircraft.
Variable hourPx : Q.

Definition renderBlock (tail : string) (block : string * string) : option element :=
  let '(start, end_) := block in
  h ← blockHours start end_;
  let '(startHour, endHour) := h in
  let left := (startHour * hourPx)%Q in
  let width := ((endHour - startHour) * hourPx)%Q in
  Some (Div left width (tailColors !! tail)).

Definition renderBlocks (tail : string) (date : Date.t) : option (list element) :=
  ac ← data !! tail;
  let key := Date.isoKey date in
  let blocks := default [] (blocksByDate ac !! key) in
  mapM (renderBlock tail) blocks.
End Component.

End Part003.

(** ** The membership test as section 4.4 of the specification words it *)

(** The end bound in minutes: 1440 is added when the end is at or before the
    start. *)
Definition spec_endMinute (sMin eMin : Z) : Z :=
  if eMin <=? sMin then eMin + 1440 else eMin.

(** The (date, hour) bucket of the [k]-th 60-minute step from [sMin]: a
    stepped hour of 24 or more falls on the next calendar date, reduced
    modulo 24. *)
Definition spec_visitedBucket (date : Date.t) (sMin k : Z) : Date.t * Z :=
  let hr := (sMin + 60 * k) / 60 in
  if 24 <=? hr then (date + 1, hr mod 24) else (date, hr).

(** Some visited bucket holds an indexed record satisfying [P]. *)
Definition spec_visitedMatch (m : gmap string (gmap (option Z) WeatherRecord))
    (date : Date.t) (sMin eMin : Z) (P : WeatherRecord → Prop) : Prop :=
  ∃ k rec,
    0 <= k ∧ sMin + 60 * k < eMin ∧
    lookupRecord m (Date.isoKey (spec_visitedBucket date sMin k).1)
                 (Some (spec_visitedBucket date sMin k).2) = Some rec ∧
    P rec.

(** Some hour touched by the interval [sMin, eMin) holds an indexed record
    satisfying [P]: the hour of any minute of the interval counts, on the
    next calendar date once past midnight. *)
Definition spec_touchedMatch (m : gmap string (gmap (option Z) WeatherRecord))
    (date : Date.t) (sMin eMin : Z) (P : WeatherRecord → Prop) : Prop :=
  ∃ t rec,
    sMin <= t < eMin ∧
    lookupRecord m (Date.isoKey (spec_visitedBucket date t 0).1)
                 (Some (spec_visitedBucket date t 0).2) = Some rec ∧
    P rec.

(** ** The calendar grid as the specification words it *)

(** The Monday on or before [start]: [(weekday + 6) mod 7] days back. *)
Definition spec_monday (start : Date.t) : Date.t :=
  start - (Date.getDay start + 6) mod 7.

(** Seven consecutive dates from [monday]. *)
Definition spec_week (monday : Date.t) : list Date.t := seqZ monday 7.

(** [n] consecutive weeks from [first]. *)
Definition spec_weeks (first : Date.t) (n : nat) : list (list Date.t) :=
  (λ k : nat, spec_week (first + 7 * Z.of_nat k)) <$> seq 0 n.

(** ** The temperature bands as an ordered scale *)

(** The six breakpoints, coldest first, and the rank of a temperature on
    the scale: the number of breakpoints strictly below it. *)
Definition spec_breakpoints : list Q := [-30; -10; 0; 10; 20; 30]%Q.

Definition spec_bandRank (t : Q) : nat :=
  length (List.filter (λ b, negb (Qle_bool t b)) spec_breakpoints).

(** * Properties *)

Example isoKey_ex : Date.isoKey (Date.make 2025 0 15) = "2025-01-15".
Proof. reflexivity. Qed.

Example getDay_ex : Date.getDay (Date.make 2024 6 1) = 1.
Proof. reflexivity. Qed.

(** ** Temperature bands *)

Lemma tempToColor_num_band (q : Q) : tempToColor (JS.Num q) ∈ temperature_bands.
Proof.
  unfold tempToColor, temperature_bands.
  repeat (match goal with |- context [Qle_bool ?a ?b] => destruct (Qle_bool a b) end);
    set_solver.
Qed.

(** C9. A null or undefined temperature is given no band: [tempToColor]
    returns the sentinel ["transparent"], which is none of the seven band
    colours (every number does get one of them), and the temperature row of a
    day then carries, for an indexed record with such a temperature, a
    segment coloured ["transparent"]. *)
Theorem tempToColor_null_no_band :
  tempToColor JS.Null = "transparent"
  ∧ tempToColor JS.Undefined = "transparent"
  ∧ ("transparent" ∉ temperature_bands)
  ∧ (∀ q : Q, tempToColor (JS.Num q) ∈ temperature_bands)
  ∧ ∀ (metarData : list WeatherRecord) (hourPx : Q) (d : Date.t)
      (hr : option Z) (rec : WeatherRecord),
      lookupRecord (metarLookup metarData) (Date.isoKey d) hr = Some rec →
      temp_C rec = JS.Null ∨ temp_C rec = JS.Undefined →
      {| seg_left := (λ h, inject_Z h * hourPx)%Q <$> getHours (local_time rec);
         seg_width := hourPx;
         seg_color := Some "transparent" |}
      ∈ Part005.temperatureRow metarData hourPx true d.
Proof.
  split_and!; try reflexivity.
  - unfold temperature_bands. intros H.
    repeat (apply elem_of_cons in H as [H | H]; [discriminate H |]).
    by apply elem_of_nil in H.
  - apply tempToColor_num_band.
  - intros metarData hourPx d hr rec Hlk Hnull.
    unfold Part005.temperatureRow, lookupRecord in *.
    destruct (metarLookup metarData !! Date.isoKey d) as [day |] eqn:Hday;
      simpl in *; [| discriminate].
    apply list_elem_of_fmap. exists rec. split.
    + f_equal. f_equal. by destruct Hnull as [-> | ->].
    + apply list_elem_of_fmap. exists (hr, rec). split; [done |].
      by apply elem_of_map_to_list.
Qed.

Lemma tempToColor_null_no_band_witness :
  let rec := {| local_time := "2025-01-01T05:00"; flight_category := "VFR";
                temp_C := JS.Null |} in
  {| seg_left := Some (5 * 4)%Q; seg_width := 4%Q; seg_color := Some "transparent" |}
  ∈ Part005.temperatureRow [rec] 4 true (Date.make 2025 0 1).
Proof.
  intros rec.
  destruct tempToColor_null_no_band as (_ & _ & _ & _ & Hrow).
  apply (Hrow [rec] 4%Q (Date.make 2025 0 1) (Some 5) rec); [reflexivity | by left].
Defined.

(** ** Weather Join Index *)

Lemma metarLookup_snoc (data : list WeatherRecord) (r : WeatherRecord) :
  metarLookup (data ++ [r]) = metarLookup_step (metarLookup data) r.
Proof. unfold metarLookup. by rewrite foldl_app. Qed.

Lemma lookupRecord_step (m : gmap string (gmap (option Z) WeatherRecord))
    (r : WeatherRecord) (key : string) (hr : option Z) :
  lookupRecord (metarLookup_step m r) key hr =
  if decide (bucket r = (key, hr)) then Some r else lookupRecord m key hr.
Proof.
  unfold lookupRecord, metarLookup_step, bucket.
  destruct (decide (JS.slice (local_time r) 0 10 = key)) as [<- | Hk].
  - rewrite lookup_insert_eq. simpl.
    destruct (decide (getHours (local_time r) = hr)) as [<- | Hh].
    + rewrite lookup_insert_eq. by rewrite decide_True.
    + rewrite lookup_insert_ne by done.
      rewrite decide_False by congruence.
      destruct (m !! JS.slice (local_time r) 0 10); simpl; [done |].
      apply lookup_empty.
  - rewrite lookup_insert_ne by done.
    by rewrite decide_False by congruence.
Qed.

(** The index returns, for every (date, hour), the last record of the source
    that is filed under it. *)
Lemma lookupRecord_metarLookup (data : list WeatherRecord) (key : string)
    (hr : option Z) :
  lookupRecord (metarLookup data) key hr =
  last (filter (λ r, bucket r = (key, hr)) data).
Proof.
  induction data as [| r data IH] using rev_ind.
  - unfold metarLookup, lookupRecord. simpl. by rewrite lookup_empty.
  - rewrite metarLookup_snoc, lookupRecord_step, filter_app, IH.
    rewrite filter_cons, filter_nil.
    case_decide.
    + by rewrite last_snoc.
    + by rewrite app_nil_r.
Qed.

Lemma entryCount_insert_fresh (m : gmap string (gmap (option Z) WeatherRecord))
    (k : string) (day : gmap (option Z) WeatherRecord) :
  m !! k = None → entryCount (<[k := day]> m) = (size day + entryCount m)%nat.
Proof.
  intros Hk. unfold entryCount.
  rewrite map_fold_insert_L; [done | intros; lia | done].
Qed.

Lemma entryCount_insert_present (m : gmap string (gmap (option Z) WeatherRecord))
    (k : string) (day0 day : gmap (option Z) WeatherRecord) :
  m !! k = Some day0 →
  (entryCount (<[k := day]> m) + size day0 = size day + entryCount m)%nat.
Proof.
  intros Hk.
  rewrite <- (insert_id m k day0 Hk) at 2.
  rewrite <- (insert_delete_eq m k day), <- (insert_delete_eq m k day0).
  rewrite !entryCount_insert_fresh by apply lookup_delete_eq.
  lia.
Qed.

Lemma entryCount_step (m : gmap string (gmap (option Z) WeatherRecord))
    (r : WeatherRecord) :
  entryCount (metarLookup_step m r) =
  match lookupRecord m (bucket r).1 (bucket r).2 with
  | Some _ => entryCount m
  | None => S (entryCount m)
  end.
Proof.
  unfold lookupRecord, metarLookup_step, bucket. simpl.
  destruct (m !! JS.slice (local_time r) 0 10) as [day |] eqn:Hday; simpl.
  - pose proof (entryCount_insert_present m _ day
                  (<[getHours (local_time r) := r]> day) Hday) as Hc.
    destruct (day !! getHours (local_time r)) as [r0 |] eqn:Hr.
    + rewrite map_size_insert_Some in Hc by eauto. lia.
    + rewrite map_size_insert_None in Hc by done. lia.
  - rewrite entryCount_insert_fresh by done.
    rewrite map_size_insert_None by apply lookup_empty.
    by rewrite map_size_empty.
Qed.

Lemma entryCount_metarLookup (data : list WeatherRecord) :
  entryCount (metarLookup data) =
  size (list_to_set (bucket <$> data) : gset (string * option Z)).
Proof.
  induction data as [| r data IH] using rev_ind.
  - unfold metarLookup, entryCount. simpl. by rewrite map_fold_empty.
  - rewrite metarLookup_snoc, entryCount_step, fmap_app, list_to_set_app_L.
    change (bucket <$> [r]) with [bucket r].
    rewrite list_to_set_singleton_L, lookupRecord_metarLookup.
    destruct (last _) as [r0 |] eqn:Hlast.
    + apply last_Some_elem_of, list_elem_of_filter in Hlast as [Hb Hin].
      rewrite IH. f_equal.
      assert (bucket r ∈ bucket <$> data) as Hmem.
      { apply list_elem_of_fmap. exists r0. split; [| done].
        by rewrite Hb. }
      apply set_eq. intros x.
      rewrite elem_of_union, elem_of_singleton, elem_of_list_to_set.
      split; [by left | intros [Hx | Hx]; [done | by subst x]].
    + apply last_None in Hlast.
      assert (bucket r ∉ bucket <$> data) as Hmem.
      { intros [r0 [Hb Hin]]%list_elem_of_fmap.
        apply (elem_of_nil r0). rewrite <- Hlast.
        apply list_elem_of_filter. split; [| done]. by rewrite <- Hb. }
      rewrite size_union.
      * rewrite size_singleton, IH. lia.
      * apply disjoint_singleton_r. by rewrite elem_of_list_to_set.
Qed.

Lemma filter_all_fail {A : Type} (P : A → Prop) `{!∀ x, Decision (P x)}
    (l : list A) :
  Forall (λ x, ¬ P x) l → filter P l = [].
Proof.
  induction 1 as [| x l Hx _ IH]; [done |].
  by rewrite filter_cons_False.
Qed.

(** C6. The index built from any sequence of records has an entry at a
    (date, hour) exactly when the source has a record filed there, the entry
    is the last such record of the source (last write wins), and the number
    of entries is the number of distinct (date, hour) pairs of the source.
    Two records at [2025-01-01T05:00], VFR then IFR, leave the IFR record at
    (2025-01-01, 5). *)
Theorem metarLookup_last_write_wins :
  (let vfr := {| local_time := "2025-01-01T05:00"; flight_category := "VFR";
                 temp_C := JS.Null |} in
   let ifr := {| local_time := "2025-01-01T05:00"; flight_category := "IFR";
                 temp_C := JS.Null |} in
   lookupRecord (metarLookup [vfr; ifr]) "2025-01-01" (Some 5) = Some ifr)
  ∧ ∀ data : list WeatherRecord,
      entryCount (metarLookup data) =
        size (list_to_set (bucket <$> data) : gset (string * option Z))
      ∧ ∀ (key : string) (hr : option Z),
          (is_Some (lookupRecord (metarLookup data) key hr) ↔
             (key, hr) ∈ bucket <$> data)
          ∧ lookupRecord (metarLookup data) key hr =
              last (filter (λ r, bucket r = (key, hr)) data)
          ∧ ∀ r : WeatherRecord,
              lookupRecord (metarLookup data) key hr = Some r ↔
              ∃ before after,
                data = before ++ r :: after ∧ bucket r = (key, hr) ∧
                Forall (λ r', bucket r' ≠ (key, hr)) after.
Proof.
  split; [by vm_compute |].
  intros data. split; [apply entryCount_metarLookup |].
  intros key hr. rewrite lookupRecord_metarLookup. split_and!; [| done |].
  - rewrite list_elem_of_fmap. split.
    + intros [r Hr]. apply last_Some_elem_of, list_elem_of_filter in Hr as [Hb Hin].
      by exists r.
    + intros [r [Hb Hin]].
      destruct (last (filter (λ r, bucket r = (key, hr)) data)) as [r0 |] eqn:Hl;
        [by eexists |].
      apply last_None in Hl. exfalso. apply (elem_of_nil r). rewrite <- Hl.
      by apply list_elem_of_filter.
  - intros r. split.
    + intros Hl. pose proof Hl as Hb.
      apply last_Some_elem_of, list_elem_of_filter in Hb as [Hb _].
      apply last_filter_Some in Hl as (before & after & -> & Hall).
      by exists before, after.
    + intros (before & after & -> & Hb & Hall).
      rewrite filter_app, filter_cons_True by done.
      rewrite (filter_all_fail _ after Hall).
      by rewrite last_snoc.
Qed.

(** ** Time Interval Model *)

Lemma fracHour_range (hm : Z * Z) :
  0 <= hm.1 < 24 → 0 <= hm.2 < 60 → (0 <= fracHour hm < 24)%Q.
Proof.
  destruct hm as [h m]. simpl. intros [Hh0 Hh1] [Hm0 Hm1]. unfold fracHour. simpl.
  assert (h <= 23) as Hh2 by lia.
  rewrite Zle_Qle in Hh0, Hh2, Hm0. rewrite Zlt_Qlt in Hm1.
  change (inject_Z 0) with 0%Q in *. change (inject_Z 23) with 23%Q in *.
  change (inject_Z 60) with 60%Q in *.
  unfold Qdiv. change (/ 60)%Q with (1 # 60)%Q.
  split; lra.
Qed.

Lemma wf_code_range (s : string) (hm : Z * Z) :
  wf_code s → parseCode s = Some hm → (0 <= fracHour hm < 24)%Q.
Proof.
  intros (_ & h & m & Hp & Hh & Hm) Hs. rewrite Hs in Hp.
  injection Hp as ->. by apply fracHour_range.
Qed.

Lemma lt_bool_true (a b : Q) : JS.lt_bool a b = true ↔ (a < b)%Q.
Proof.
  unfold JS.lt_bool. rewrite negb_true_iff.
  destruct (Qle_bool b a) eqn:Hle.
  - apply Qle_bool_iff in Hle. split; [discriminate | lra].
  - split; [intros _ | done].
    apply Qnot_le_lt. intros Hc. apply Qle_bool_iff in Hc. congruence.
Qed.

Lemma lt_bool_false (a b : Q) : JS.lt_bool a b = false ↔ (b <= a)%Q.
Proof.
  unfold JS.lt_bool. rewrite negb_false_iff. apply Qle_bool_iff.
Qed.

Lemma Qle_bool_false (a b : Q) : Qle_bool a b = false ↔ (b < a)%Q.
Proof.
  destruct (Qle_bool a b) eqn:Hle.
  - apply Qle_bool_iff in Hle. split; [discriminate | lra].
  - split; [intros _ | done].
    apply Qnot_le_lt. intros Hc. apply Qle_bool_iff in Hc. congruence.
Qed.

(** The [<=] variants: the end rolls over whenever it is at or before the
    start. *)
Lemma blockHours_le_spec (start end_ : string) (s e : Z * Z) :
  parseCode start = Some s → parseCode end_ = Some e →
  Part005.blockHours start end_ =
    Some (fracHour s,
          if Qle_bool (fracHour e) (fracHour s) then (fracHour e + 24)%Q
          else fracHour e)
  ∧ App19.blockHours start end_ = Part005.blockHours start end_.
Proof.
  intros Hs He. unfold Part005.blockHours, App19.blockHours.
  rewrite Hs, He. done.
Qed.

(** The [<] variants: the end rolls over only when it is strictly before the
    start. *)
Lemma blockHours_lt_spec (start end_ : string) (s e : Z * Z) :
  parseCode start = Some s → parseCode end_ = Some e →
  Part000.blockHours start end_ =
    Some (fracHour s,
          if JS.lt_bool (fracHour e) (fracHour s) then (fracHour e + 24)%Q
          else fracHour e)
  ∧ Part003.blockHours start end_ = Part000.blockHours start end_.
Proof.
  intros Hs He. unfold Part000.blockHours, Part003.blockHours.
  rewrite Hs, He. done.
Qed.

(** Every variant renders the block it keeps from [blockHours]. *)
Lemma renderBlock_unfiltered (hourPx : Q) (tail start end_ : string) :
  Part000.renderBlock hourPx tail (start, end_) =
    (λ h : Q * Q, Div (h.1 * hourPx)%Q ((h.2 - h.1) * hourPx)%Q (tailColors !! tail))
      <$> Part000.blockHours start end_
  ∧ Part003.renderBlock hourPx tail (start, end_) =
    (λ h : Q * Q, Div (h.1 * hourPx)%Q ((h.2 - h.1) * hourPx)%Q (tailColors !! tail))
      <$> Part003.blockHours start end_.
Proof.
  unfold Part000.renderBlock, Part003.renderBlock.
  destruct (Part000.blockHours start end_) as [[sH eH] |];
  destruct (Part003.blockHours start end_) as [[sH' eH'] |]; done.
Qed.

Lemma renderBlock_filtered (metarData : list WeatherRecord) (hourPx : Q)
    (catFilters : gmap string bool) (tail : string) (date : Date.t)
    (start end_ : string) (el : element) :
  Part005.renderBlock metarData hourPx catFilters tail date (start, end_) = Some el
  ∨ App19.renderBlock metarData hourPx catFilters tail date (start, end_) = Some el →
  el = Null
  ∨ ∃ sH eH, Part005.blockHours start end_ = Some (sH, eH)
             ∧ el = Div (sH * hourPx)%Q ((eH - sH) * hourPx)%Q (tailColors !! tail).
Proof.
  assert (App19.blockHours start end_ = Part005.blockHours start end_) as Heq by done.
  unfold Part005.renderBlock, App19.renderBlock. rewrite Heq.
  intros [H | H].
  - destruct (JS.someM _ _) as [[] |]; simpl in H; [| by left; injection H | done].
    destruct (Part005.blockHours start end_) as [[sH eH] |]; simpl in H; [| done].
    right. exists sH, eH. split; [done |]. by injection H.
  - destruct (App19.blockMatchesFilters _ _ _ _ _) as [[] |]; simpl in H;
      [| by left; injection H | done].
    destruct (Part005.blockHours start end_) as [[sH eH] |]; simpl in H; [| done].
    right. exists sH, eH. split; [done |]. by injection H.
Qed.

(** C8. An interval whose parsed end is strictly after its parsed start is
    taken as it is: every variant computes the hours (parsed start, parsed
    end), and the rendered block has left = start x scale and
    width = (end - start) x scale. *)
Theorem single_day_width_exact (metarData : list WeatherRecord) (hourPx : Q)
    (catFilters : gmap string bool) (tail : string) (date : Date.t)
    (start end_ : string) (s e : Z * Z) :
  parseCode start = Some s → parseCode end_ = Some e →
  (fracHour s < fracHour e)%Q →
  let block := Div (fracHour s * hourPx)%Q ((fracHour e - fracHour s) * hourPx)%Q
                   (tailColors !! tail) in
  Part000.renderBlock hourPx tail (start, end_) = Some block
  ∧ Part003.renderBlock hourPx tail (start, end_) = Some block
  ∧ Part000.blockHours start end_ = Some (fracHour s, fracHour e)
  ∧ Part003.blockHours start end_ = Some (fracHour s, fracHour e)
  ∧ Part005.blockHours start end_ = Some (fracHour s, fracHour e)
  ∧ App19.blockHours start end_ = Some (fracHour s, fracHour e)
  ∧ ∀ el,
      Part005.renderBlock metarData hourPx catFilters tail date (start, end_) = Some el
      ∨ App19.renderBlock metarData hourPx catFilters tail date (start, end_) = Some el →
      el = Null ∨ el = block.
Proof.
  intros Hs He Hlt block.
  destruct (blockHours_lt_spec start end_ s e Hs He) as [H0 H3].
  destruct (blockHours_le_spec start end_ s e Hs He) as [H5 H19].
  assert (JS.lt_bool (fracHour e) (fracHour s) = false) as Hnlt.
  { apply lt_bool_false. lra. }
  assert (Qle_bool (fracHour e) (fracHour s) = false) as Hnle.
  { by apply Qle_bool_false. }
  rewrite Hnlt in H0. rewrite Hnle in H5. rewrite H0 in H3. rewrite H5 in H19.
  destruct (renderBlock_unfiltered hourPx tail start end_) as [R0 R3].
  rewrite H0 in R0. rewrite H3 in R3.
  split_and!; try done.
  intros el Hel. apply renderBlock_filtered in Hel as [-> | (sH & eH & Hh & ->)];
    [by left | right].
  rewrite H5 in Hh. by injection Hh as <- <-.
Qed.

Lemma single_day_width_exact_witness :
  Part000.renderBlock 4 "N65620" ("0900", "1030") =
    Some (Div (fracHour (9, 0)%Z * 4)%Q ((fracHour (10, 30)%Z - fracHour (9, 0)%Z) * 4)%Q
              (tailColors !! "N65620")).
Proof.
  apply (single_day_width_exact [] 4 ∅ "N65620" 0 "0900" "1030" (9, 0) (10, 30));
    reflexivity.
Defined.

Lemma width_nonneg (sH eH hourPx : Q) :
  (0 <= eH - sH)%Q → (0 <= hourPx)%Q → (0 <= (eH - sH) * hourPx)%Q.
Proof. intros. by apply Qmult_le_0_compat. Qed.

(** C3 as stated fails on the variants with the strict test: in part_000, a
    block whose end equals its start keeps its end. *)
Lemma strict_variant_keeps_equal_end :
  wf_code "1200"
  ∧ parseCode "1200" = Some (12, 0)
  ∧ (fracHour (12, 0)%Z <= fracHour (12, 0)%Z)%Q
  ∧ Part000.blockHours "1200" "1200" = Some (fracHour (12, 0)%Z, fracHour (12, 0)%Z)
  ∧ ¬ (fracHour (12, 0)%Z == fracHour (12, 0)%Z + 24)%Q.
Proof.
  split_and!; try reflexivity.
  - split; [reflexivity |]. exists 12, 0. split; [reflexivity | lia].
  - discriminate.
  - intros H. vm_compute in H. discriminate H.
Qed.

(** C3, amended.  For well-formed clock codes: the variants that test
    [eH <= sH] (part_005, App (19).js) set the end to parsed end + 24 whenever
    the parsed end is at or before the parsed start; the variants that test
    [eH < sH] (part_000, part_003) do so only when it is strictly before, and
    keep an end equal to the start.  In every variant [eH - sH], and with it
    the width for a non-negative scale, is non-negative. *)
Theorem cross_midnight_end_and_width (start end_ : string) (s e : Z * Z) :
  wf_code start → wf_code end_ →
  parseCode start = Some s → parseCode end_ = Some e →
  (∃ eH,
      Part005.blockHours start end_ = Some (fracHour s, eH)
      ∧ App19.blockHours start end_ = Some (fracHour s, eH)
      ∧ ((fracHour e <= fracHour s)%Q → eH = (fracHour e + 24)%Q)
      ∧ (0 <= eH - fracHour s)%Q
      ∧ ∀ hourPx, (0 <= hourPx)%Q → (0 <= (eH - fracHour s) * hourPx)%Q)
  ∧ (∃ eH,
      Part000.blockHours start end_ = Some (fracHour s, eH)
      ∧ Part003.blockHours start end_ = Some (fracHour s, eH)
      ∧ ((fracHour e < fracHour s)%Q → eH = (fracHour e + 24)%Q)
      ∧ ((fracHour e == fracHour s)%Q → eH = fracHour e)
      ∧ (0 <= eH - fracHour s)%Q
      ∧ ∀ hourPx, (0 <= hourPx)%Q → (0 <= (eH - fracHour s) * hourPx)%Q).
Proof.
  intros Wfs Wfe Hs He.
  pose proof (wf_code_range _ _ Wfs Hs) as Rs.
  pose proof (wf_code_range _ _ Wfe He) as Re.
  destruct (blockHours_lt_spec start end_ s e Hs He) as [H0 H3].
  destruct (blockHours_le_spec start end_ s e Hs He) as [H5 H19].
  rewrite H0 in H3. rewrite H5 in H19.
  split.
  - eexists. split; [exact H5 |]. split; [exact H19 |].
    destruct (Qle_bool (fracHour e) (fracHour s)) eqn:Hle.
    + apply Qle_bool_iff in Hle.
      assert (0 <= fracHour e + 24 - fracHour s)%Q as Hw by lra.
      split_and!; [done | done |]. intros. by apply width_nonneg.
    + apply Qle_bool_false in Hle.
      assert (0 <= fracHour e - fracHour s)%Q as Hw by lra.
      split_and!; [intros; lra | done |]. intros. by apply width_nonneg.
  - eexists. split; [exact H0 |]. split; [exact H3 |].
    destruct (JS.lt_bool (fracHour e) (fracHour s)) eqn:Hlt.
    + apply lt_bool_true in Hlt.
      assert (0 <= fracHour e + 24 - fracHour s)%Q as Hw by lra.
      split_and!; [done | intros; lra | done |]. intros. by apply width_nonneg.
    + apply lt_bool_false in Hlt.
      assert (0 <= fracHour e - fracHour s)%Q as Hw by lra.
      split_and!; [intros; lra | done | done |]. intros. by apply width_nonneg.
Qed.

Lemma wf_code_2330 : wf_code "2330".
Proof. split; [reflexivity |]. exists 23, 30. split; [reflexivity | lia]. Qed.

Lemma wf_code_0130 : wf_code "0130".
Proof. split; [reflexivity |]. exists 1, 30. split; [reflexivity | lia]. Qed.

Lemma cross_midnight_end_and_width_witness :
  ∃ eH,
    Part005.blockHours "2330" "0130" = Some (fracHour (23, 30)%Z, eH)
    ∧ eH = (fracHour (1, 30)%Z + 24)%Q
    ∧ (0 <= (eH - fracHour (23, 30)%Z) * 4)%Q.
Proof.
  destruct (cross_midnight_end_and_width "2330" "0130" (23, 30) (1, 30)
              wf_code_2330 wf_code_0130 eq_refl eq_refl)
    as [(eH & H5 & _ & Hroll & _ & Hw) _].
  exists eH. split; [exact H5 |]. split.
  - apply Hroll. vm_compute. discriminate.
  - apply Hw. vm_compute. discriminate.
Defined.

(** ** Category Membership Test *)

(** Both hour loops have the shape "stop at the first matching step"; after
    [funelim] the two cases are closed the same way. *)
Ltac first_match_loop :=
  match goal with
  | IH : _ ↔ _, Hlt : (?t < ?eMin) |- (if ?c then true else _) = true ↔ _ =>
      clear -IH Hlt;
      destruct c eqn:Hm;
      [ split; [intros _; exists 0; rewrite Z.mul_0_r, Z.add_0_r; by split_and! | done]
      | rewrite IH; split;
        [ intros (k & Hk & Hb & Hk'); exists (k + 1);
          replace (t + 60 * (k + 1)) with (t + 60 + 60 * k) by lia;
          split_and!; [lia | lia | done]
        | intros (k & Hk & Hb & Hk');
          assert (k ≠ 0) as Hne
            by (intros ->; rewrite Z.mul_0_r, Z.add_0_r in Hk'; congruence);
          exists (k - 1);
          replace (t + 60 + 60 * (k - 1)) with (t + 60 * k) by lia;
          split_and!; [lia | lia | done] ] ]
  | Hge : ¬ (?t < ?eMin) |- false = true ↔ _ =>
      split; [done | intros (k & Hk & Hb & _); lia]
  end.

Lemma categoryLoop_true (m : gmap string (gmap (option Z) WeatherRecord))
    (date : Date.t) (cat : string) (eMin t : Z) :
  Part005.categoryLoop m date cat eMin t = true ↔
  ∃ k, 0 <= k ∧ t + 60 * k < eMin ∧ Part005.matchAt m date cat (t + 60 * k) = true.
Proof.
  funelim (Part005.categoryLoop m date cat eMin t);
    first_match_loop.
Qed.

Lemma filterLoop_true (m : gmap string (gmap (option Z) WeatherRecord))
    (catFilters : gmap string bool) (date : Date.t) (eMin t : Z) :
  App19.filterLoop m catFilters date eMin t = true ↔
  ∃ k, 0 <= k ∧ t + 60 * k < eMin
       ∧ App19.matchAt m catFilters date (t + 60 * k) = true.
Proof.
  funelim (App19.filterLoop m catFilters date eMin t);
    first_match_loop.
Qed.

Lemma hourBucket_spec (date : Date.t) (sMin k : Z) :
  Part005.hourBucket date (sMin + 60 * k) =
  (Date.isoKey (spec_visitedBucket date sMin k).1, (spec_visitedBucket date sMin k).2).
Proof.
  unfold Part005.hourBucket, spec_visitedBucket, JS.floor_div, JS.rem, Date.addDays.
  simpl. destruct (24 <=? (sMin + 60 * k) / 60) eqn:Hhr; [| done].
  apply Z.leb_le in Hhr. simpl. f_equal.
  apply Z.rem_mod_nonneg; lia.
Qed.

Lemma matchAt_category (m : gmap string (gmap (option Z) WeatherRecord))
    (date : Date.t) (cat : string) (sMin k : Z) :
  Part005.matchAt m date cat (sMin + 60 * k) = true ↔
  ∃ rec,
    lookupRecord m (Date.isoKey (spec_visitedBucket date sMin k).1)
                 (Some (spec_visitedBucket date sMin k).2) = Some rec
    ∧ flight_category rec = cat.
Proof.
  unfold Part005.matchAt. rewrite hourBucket_spec. simpl.
  destruct (lookupRecord m _ _) as [rec |].
  - rewrite String.eqb_eq. split; [by exists rec |].
    by intros (rec' & [= <-] & Hc).
  - split; [done | by intros (rec' & Hn & _)].
Qed.

Lemma matchAt_filters (m : gmap string (gmap (option Z) WeatherRecord))
    (catFilters : gmap string bool) (date : Date.t) (sMin k : Z) :
  App19.matchAt m catFilters date (sMin + 60 * k) = true ↔
  ∃ rec,
    lookupRecord m (Date.isoKey (spec_visitedBucket date sMin k).1)
                 (Some (spec_visitedBucket date sMin k).2) = Some rec
    ∧ catFilters !! flight_category rec = Some true.
Proof.
  unfold App19.matchAt. rewrite hourBucket_spec. simpl.
  destruct (lookupRecord m _ _) as [rec |].
  - split.
    + intros Hon. exists rec. split; [done |].
      by destruct (catFilters !! flight_category rec) as [[] |].
    + intros (rec' & [= <-] & Hc). by rewrite Hc.
  - split; [done | by intros (rec' & Hn & _)].
Qed.

Lemma blockHasCategory_spec (m : gmap string (gmap (option Z) WeatherRecord))
    (date : Date.t) (start end_ cat : string) (s e : Z * Z) :
  parseCode start = Some s → parseCode end_ = Some e →
  ∃ b, Part005.blockHasCategory m date start end_ cat = Some b
       ∧ (b = true ↔
          spec_visitedMatch m date (minuteOfDay s)
            (spec_endMinute (minuteOfDay s) (minuteOfDay e))
            (λ rec, flight_category rec = cat)).
Proof.
  intros Hs He. unfold Part005.blockHasCategory. rewrite Hs, He. simpl.
  eexists. split; [done |].
  rewrite categoryLoop_true. unfold spec_visitedMatch, spec_endMinute.
  split.
  - intros (k & Hk & Hb & (rec & Hl & Hc)%matchAt_category).
    by exists k, rec.
  - intros (k & rec & Hk & Hb & Hl & Hc).
    exists k. split_and!; [done | done |]. apply matchAt_category. by exists rec.
Qed.

Lemma blockMatchesFilters_spec (m : gmap string (gmap (option Z) WeatherRecord))
    (catFilters : gmap string bool) (date : Date.t) (start end_ : string)
    (s e : Z * Z) :
  parseCode start = Some s → parseCode end_ = Some e →
  ∃ b, App19.blockMatchesFilters m catFilters date start end_ = Some b
       ∧ (b = true ↔
          spec_visitedMatch m date (minuteOfDay s)
            (spec_endMinute (minuteOfDay s) (minuteOfDay e))
            (λ rec, catFilters !! flight_category rec = Some true)).
Proof.
  intros Hs He. unfold App19.blockMatchesFilters. rewrite Hs, He. simpl.
  eexists. split; [done |].
  rewrite filterLoop_true. unfold spec_visitedMatch, spec_endMinute.
  split.
  - intros (k & Hk & Hb & (rec & Hl & Hc)%matchAt_filters).
    by exists k, rec.
  - intros (k & rec & Hk & Hb & Hl & Hc).
    exists k. split_and!; [done | done |]. apply matchAt_filters. by exists rec.
Qed.

(** C2. For clock codes that parse, [blockHasCategory] returns, and returns
    true exactly when one of the buckets visited by stepping from [sMin] in
    60-minute steps while below [eMin] (1440 added when the end is at or
    before the start) holds an indexed record of the target category; a
    stepped hour of 24 or more is looked up on the next calendar date, modulo
    24.  [blockMatchesFilters] of App (19).js visits the same buckets and
    asks for a record of any enabled category. *)
Theorem blockHasCategory_iff_visited_bucket
    (m : gmap string (gmap (option Z) WeatherRecord))
    (catFilters : gmap string bool) (date : Date.t)
    (start end_ cat : string) (s e : Z * Z) :
  parseCode start = Some s → parseCode end_ = Some e →
  let sMin := minuteOfDay s in
  let eMin := spec_endMinute sMin (minuteOfDay e) in
  (∃ b, Part005.blockHasCategory m date start end_ cat = Some b
        ∧ (b = true ↔
           ∃ k rec,
             0 <= k ∧ sMin + 60 * k < eMin
             ∧ lookupRecord m (Date.isoKey (spec_visitedBucket date sMin k).1)
                 (Some (spec_visitedBucket date sMin k).2) = Some rec
             ∧ flight_category rec = cat))
  ∧ (∃ b, App19.blockMatchesFilters m catFilters date start end_ = Some b
        ∧ (b = true ↔
           ∃ k rec,
             0 <= k ∧ sMin + 60 * k < eMin
             ∧ lookupRecord m (Date.isoKey (spec_visitedBucket date sMin k).1)
                 (Some (spec_visitedBucket date sMin k).2) = Some rec
             ∧ catFilters !! flight_category rec = Some true))
  ∧ (∀ t, Part005.hourBucket date t =
          if 24 <=? t / 60
          then (Date.isoKey (Date.addDays date 1), (t / 60) mod 24)
          else (Date.isoKey date, t / 60)).
Proof.
  intros Hs He sMin eMin. split_and!.
  - apply (blockHasCategory_spec m date start end_ cat s e Hs He).
  - apply (blockMatchesFilters_spec m catFilters date start end_ s e Hs He).
  - intros t. unfold Part005.hourBucket, JS.floor_div, JS.rem.
    destruct (24 <=? t / 60) eqn:Hhr; [| done].
    apply Z.leb_le in Hhr. f_equal. apply Z.rem_mod_nonneg; lia.
Qed.

Lemma blockHasCategory_iff_visited_bucket_witness :
  let m := metarLookup [{| local_time := "2025-01-16T00:00";
                           flight_category := "IFR"; temp_C := JS.Null |}] in
  ∃ b, Part005.blockHasCategory m (Date.make 2025 0 15) "2330" "0130" "IFR" = Some b
       ∧ spec_visitedBucket (Date.make 2025 0 15) 1410 1 = (Date.make 2025 0 16, 0)
       ∧ b = true.
Proof.
  intros m.
  destruct (blockHasCategory_iff_visited_bucket m ∅ (Date.make 2025 0 15)
              "2330" "0130" "IFR" (23, 30) (1, 30) eq_refl eq_refl)
    as ((b & Hb & Hiff) & _ & _).
  exists b. split; [exact Hb |]. split; [reflexivity |].
  apply Hiff. exists 1. eexists. split; [lia |]. split; [reflexivity |].
  split; reflexivity.
Defined.

(** Every visited hour is touched, so a positive answer of the test is
    always backed by a touched hour. *)
Lemma visitedMatch_touchedMatch (m : gmap string (gmap (option Z) WeatherRecord))
    (date : Date.t) (sMin eMin : Z) (P : WeatherRecord → Prop) :
  spec_visitedMatch m date sMin eMin P → spec_touchedMatch m date sMin eMin P.
Proof.
  intros (k & rec & Hk & Hb & Hl & HP).
  exists (sMin + 60 * k), rec. split; [lia |].
  unfold spec_visitedBucket in *.
  replace (sMin + 60 * k + 60 * 0) with (sMin + 60 * k) by lia.
  by split.
Qed.

(** C1, at the input where the code departs from it.  The interval
    ("2330", "0130") anchored to 2025-01-15 touches hour 1 of 2025-01-16
    (minute 01:00 is inside it) and the index holds a VFR observation there,
    yet [blockHasCategory] answers false: its steps 23:30 and 00:30 examine
    hour 23 of 2025-01-15 and hour 0 of 2025-01-16 only. *)
Theorem blockHasCategory_skips_last_touched_hour :
  let date := Date.make 2025 0 15 in
  let obs := {| local_time := "2025-01-16T01:00"; flight_category := "VFR";
                temp_C := JS.Null |} in
  let m := metarLookup [obs] in
  Date.isoKey date = "2025-01-15"
  ∧ Date.isoKey (date + 1) = "2025-01-16"
  ∧ lookupRecord m "2025-01-16" (Some 1) = Some obs
  ∧ spec_touchedMatch m date 1410 1530 (λ rec, flight_category rec = "VFR")
  ∧ Part005.blockHasCategory m date "2330" "0130" "VFR" = Some false
  ∧ ∀ k, 0 <= k → 1410 + 60 * k < 1530 →
      spec_visitedBucket date 1410 k = (date, 23)
      ∨ spec_visitedBucket date 1410 k = (date + 1, 0).
Proof.
  intros date obs m. split_and!; try reflexivity.
  - exists 1500, obs. split; [lia |]. split; reflexivity.
  - intros k Hk Hb.
    assert (k = 0 ∨ k = 1) as [-> | ->] by lia; [by left | by right].
Qed.

(** ** Overlay Aggregator *)

Lemma someM_spec {A : Type} (f : A → option bool) (g : A → bool) (l : list A) :
  (∀ x, x ∈ l → f x = Some (g x)) →
  ∃ b, JS.someM f l = Some b ∧ (b = true ↔ ∃ x, x ∈ l ∧ g x = true).
Proof.
  induction l as [| x l IH]; intros Hf.
  - exists false. split; [done |]. split; [done |].
    intros (x & Hx & _). by apply elem_of_nil in Hx.
  - simpl. rewrite (Hf x) by apply list_elem_of_here. simpl.
    destruct (g x) eqn:Hg.
    + exists true. split; [done |]. split; [| done].
      intros _. exists x. split; [apply list_elem_of_here | done].
    + destruct IH as (b & Hb & Hiff).
      { intros y Hy. apply Hf. by apply list_elem_of_further. }
      exists b. split; [done |]. rewrite Hiff. split.
      * intros (y & Hy & Hgy). exists y. split; [by apply list_elem_of_further | done].
      * intros (y & Hy & Hgy). apply elem_of_cons in Hy as [-> | Hy]; [congruence |].
        by exists y.
Qed.

(** The category filter of part_005 and the one of App (19).js keep the same
    blocks: those for which some enabled category passes the membership
    test. *)
Lemma filters_agree (m : gmap string (gmap (option Z) WeatherRecord))
    (catFilters : gmap string bool) (date : Date.t) (start end_ : string) :
  is_Some (parseCode start) → is_Some (parseCode end_) →
  ∃ keep,
    JS.someM (λ entry : string * bool,
        if entry.2 then Part005.blockHasCategory m date start end_ entry.1
        else Some false) (map_to_list catFilters) = Some keep
    ∧ App19.blockMatchesFilters m catFilters date start end_ = Some keep
    ∧ (keep = true ↔
       ∃ c, catFilters !! c = Some true
            ∧ Part005.blockHasCategory m date start end_ c = Some true).
Proof.
  intros [s Hs] [e He].
  set (test c := Part005.categoryLoop m date c
                   (spec_endMinute (minuteOfDay s) (minuteOfDay e)) (minuteOfDay s)).
  assert (∀ c, Part005.blockHasCategory m date start end_ c = Some (test c)) as Htest.
  { intros c. unfold Part005.blockHasCategory. by rewrite Hs, He. }
  destruct (someM_spec
    (λ entry : string * bool,
        if entry.2 then Part005.blockHasCategory m date start end_ entry.1
        else Some false)
    (λ entry : string * bool, entry.2 && test entry.1)
    (map_to_list catFilters)) as (keep & Hkeep & Hiff).
  { intros [c on] _. simpl. destruct on; [apply Htest | done]. }
  assert (keep = true ↔
          ∃ c, catFilters !! c = Some true
               ∧ Part005.blockHasCategory m date start end_ c = Some true) as Hk.
  { rewrite Hiff. split.
    - intros ([c on] & Hin & Hg). simpl in Hg.
      apply andb_true_iff in Hg as [-> Ht].
      apply elem_of_map_to_list in Hin. exists c. by rewrite Htest, Ht.
    - intros (c & Hon & Ht). exists (c, true).
      split; [by apply elem_of_map_to_list |].
      rewrite Htest in Ht. simpl. by injection Ht. }
  destruct (blockMatchesFilters_spec m catFilters date start end_ s e Hs He)
    as (keep' & Hkeep' & Hiff').
  exists keep. split; [done |]. split; [| done].
  rewrite Hkeep'. f_equal.
  apply eq_true_iff_eq. rewrite Hiff', Hk. split.
  - intros (k & rec & Hk0 & Hb & Hl & Hon).
    exists (flight_category rec). split; [done |].
    destruct (blockHasCategory_spec m date start end_ (flight_category rec) s e Hs He)
      as (b & Hb' & Hbiff).
    rewrite Hb'. f_equal. apply Hbiff. by exists k, rec.
  - intros (c & Hon & Ht).
    destruct (blockHasCategory_spec m date start end_ c s e Hs He)
      as (b & Hb' & Hbiff).
    rewrite Hb' in Ht. injection Ht as ->.
    destruct (proj1 Hbiff eq_refl) as (k & rec & Hk0 & Hb & Hl & Hc).
    exists k, rec. by rewrite Hc.
Qed.

Lemma blockHours_is_Some (start end_ : string) :
  is_Some (parseCode start) → is_Some (parseCode end_) →
  is_Some (Part005.blockHours start end_).
Proof.
  intros [s Hs] [e He].
  destruct (blockHours_le_spec start end_ s e Hs He) as [-> _]. by eexists.
Qed.

(** What both filtered variants return for one block. *)
Lemma renderBlock_spec (metarData : list WeatherRecord) (hourPx : Q)
    (catFilters : gmap string bool) (tail : string) (date : Date.t)
    (start end_ : string) :
  is_Some (parseCode start) → is_Some (parseCode end_) →
  ∃ el,
    Part005.renderBlock metarData hourPx catFilters tail date (start, end_) = Some el
    ∧ App19.renderBlock metarData hourPx catFilters tail date (start, end_) = Some el
    ∧ (el ≠ Null ↔
       ∃ c, catFilters !! c = Some true
            ∧ Part005.blockHasCategory (metarLookup metarData) date start end_ c
              = Some true).
Proof.
  intros Hs He.
  destruct (filters_agree (metarLookup metarData) catFilters date start end_ Hs He)
    as (keep & Hk5 & Hk19 & Hiff).
  destruct (blockHours_is_Some start end_ Hs He) as [[sH eH] Hh].
  assert (App19.blockHours start end_ = Some (sH, eH)) as Hh19 by exact Hh.
  unfold Part005.renderBlock, App19.renderBlock.
  rewrite Hk5, Hk19, Hh, Hh19. simpl.
  destruct keep; simpl.
  - eexists. split; [done |]. split; [done |].
    split; [intros _; by apply Hiff | done].
  - exists Null. split; [done |]. split; [done |].
    split; [done |]. intros Hc. apply Hiff in Hc. discriminate.
Qed.

Lemma mapM_cons {A B : Type} (f : A → option B) (x : A) (l : list A) :
  mapM f (x :: l) = y ← f x; k ← mapM f l; Some (y :: k).
Proof. reflexivity. Qed.

Lemma mapM_renderBlock (metarData : list WeatherRecord) (hourPx : Q)
    (catFilters : gmap string bool) (tail : string) (date : Date.t)
    (blocks : list (string * string)) :
  Forall (λ b : string * string,
            is_Some (parseCode b.1) ∧ is_Some (parseCode b.2)) blocks →
  ∃ els,
    mapM (Part005.renderBlock metarData hourPx catFilters tail date) blocks = Some els
    ∧ mapM (App19.renderBlock metarData hourPx catFilters tail date) blocks = Some els
    ∧ Forall2 (λ (b : string * string) el,
         el ≠ Null ↔
         ∃ c, catFilters !! c = Some true
              ∧ Part005.blockHasCategory (metarLookup metarData) date b.1 b.2 c
                = Some true) blocks els.
Proof.
  induction 1 as [| [start end_] blocks [Hs He] _ (els & H5 & H19 & Hall)].
  - exists []. by split_and!.
  - destruct (renderBlock_spec metarData hourPx catFilters tail date start end_ Hs He)
      as (el & Hel5 & Hel19 & Hiff).
    exists (el :: els). rewrite !mapM_cons, Hel5, Hel19, H5, H19. simpl.
    split_and!; [done | done |]. by constructor.
Qed.

(** C7. For an aircraft of the dataset whose blocks of the day carry clock
    codes that parse: a hidden aircraft shows no block; a visible one gets
    one output element per block, and that element is a rendered [<div>]
    exactly when some enabled category passes the membership test for the
    block, and [null] otherwise.  So with VFR disabled, a block for which no
    other category passes the test is suppressed.  The filter of
    App (19).js gives the same output. *)
Theorem overlay_emits_iff_enabled_category
    (data : gmap string Aircraft) (metarData : list WeatherRecord) (hourPx : Q)
    (visible catFilters : gmap string bool) (tail : string) (date : Date.t)
    (ac : Aircraft) :
  data !! tail = Some ac →
  let blocks := default [] (blocksByDate ac !! Date.isoKey date) in
  Forall (λ b : string * string,
            is_Some (parseCode b.1) ∧ is_Some (parseCode b.2)) blocks →
  let test start end_ c :=
    Part005.blockHasCategory (metarLookup metarData) date start end_ c in
  ∃ els,
    Part005.aircraftCell data metarData hourPx visible catFilters tail date = Some els
    ∧ App19.aircraftCell data metarData hourPx visible catFilters tail date = Some els
    ∧ (visible !! tail ≠ Some true → els = [])
    ∧ (visible !! tail = Some true →
       length els = length blocks
       ∧ ∀ i start end_, blocks !! i = Some (start, end_) →
           ∃ el, els !! i = Some el
             ∧ (el ≠ Null ↔
                ∃ c, catFilters !! c = Some true ∧ test start end_ c = Some true)
             ∧ (catFilters !! "VFR" ≠ Some true →
                (∀ c, c ≠ "VFR" → test start end_ c ≠ Some true) →
                el = Null)).
Proof.
  intros Hac blocks Hparse test.
  destruct (mapM_renderBlock metarData hourPx catFilters tail date blocks Hparse)
    as (els & H5 & H19 & Hall).
  unfold Part005.aircraftCell, App19.aircraftCell,
    Part005.renderBlocks, App19.renderBlocks.
  rewrite Hac. simpl. fold blocks. rewrite H5, H19.
  destruct (visible !! tail) as [[] |] eqn:Hvis; simpl.
  - exists els. split_and!; [done | done | done |].
    intros _. split; [symmetry; by eapply Forall2_length |].
    intros i start end_ Hi.
    destruct (Forall2_lookup_l _ _ _ _ _ Hall Hi) as (el & Hel & Hiff).
    exists el. split; [done |]. split; [exact Hiff |].
    intros Hvfr Hothers.
    destruct el as [| l w c]; [done | exfalso].
    destruct (proj1 Hiff) as (c' & Hon & Ht); [done |].
    destruct (decide (c' = "VFR")) as [-> | Hne]; [done |].
    by apply (Hothers c').
  - exists []. by split_and!.
  - exists []. by split_and!.
Qed.

Lemma overlay_emits_iff_enabled_category_witness :
  let ac := {| blocksByDate := {[ "2025-01-15" := [("2330", "0130")] ]} |} in
  let data : gmap string Aircraft := {[ "N65620" := ac ]} in
  let metarData := [{| local_time := "2025-01-15T23:00"; flight_category := "VFR";
                       temp_C := JS.Num 3 |}] in
  let visible : gmap string bool := {[ "N65620" := true ]} in
  let catFilters : gmap string bool :=
    <["LIFR" := true]> (<["IFR" := true]> (<["MVFR" := true]> {[ "VFR" := false ]})) in
  Part005.aircraftCell data metarData 4 visible catFilters "N65620" (Date.make 2025 0 15)
  = Some [Null].
Proof.
  intros ac data metarData visible catFilters.
  destruct (overlay_emits_iff_enabled_category data metarData 4 visible catFilters
              "N65620" (Date.make 2025 0 15) ac eq_refl)
    as (els & H5 & _ & _ & Hvis).
  { vm_compute. constructor; [| constructor]. split; by eexists. }
  rewrite H5. f_equal.
  destruct (Hvis eq_refl) as [Hlen Hblocks].
  destruct (Hblocks 0%nat "2330" "0130" eq_refl) as (el & Hel & _ & Hvfr).
  destruct els as [| el' [| el'' els]]; [discriminate Hlen | | discriminate Hlen].
  injection Hel as ->. f_equal. apply Hvfr.
  - vm_compute. discriminate.
  - intros c Hc Ht.
    destruct (blockHasCategory_spec (metarLookup metarData) (Date.make 2025 0 15)
                "2330" "0130" c (23, 30) (1, 30) eq_refl eq_refl) as (b & Hb & Hiff).
    rewrite Hb in Ht. injection Ht as ->.
    destruct (proj1 Hiff eq_refl) as (k & rec & Hk & Hlt & Hl & Hcat).
    change (1410 + 60 * k < 1530) in Hlt.
    assert (k = 0 ∨ k = 1) as [-> | ->] by lia.
    + vm_compute in Hl. injection Hl as <-. simpl in Hcat. congruence.
    + vm_compute in Hl. discriminate Hl.
Defined.

(** ** Calendar Grid Builder *)

Lemma pushDays_spec (n : nat) (cur : Date.t) (wk : list Date.t) :
  pushDays n cur wk = (wk ++ seqZ cur (Z.of_nat n), cur + Z.of_nat n).
Proof.
  revert cur wk. induction n as [| n IH]; intros cur wk.
  - simpl. by rewrite seqZ_nil, app_nil_r, Z.add_0_r.
  - cbn [pushDays]. rewrite IH. unfold Date.addDays.
    rewrite Nat2Z.inj_succ, (seqZ_cons cur) by lia.
    rewrite Z.pred_succ, <- app_assoc. unfold Z.succ.
    f_equal. lia.
Qed.

Lemma pushDays_week (cur : Date.t) :
  pushDays 7 cur [] = (spec_week cur, cur + 7).
Proof. by rewrite pushDays_spec. Qed.

Lemma spec_weeks_S (first : Date.t) (n : nat) :
  spec_weeks first (S n) = spec_week first :: spec_weeks (first + 7) n.
Proof.
  unfold spec_weeks. cbn [seq fmap list_fmap]. f_equal.
  - by rewrite Z.mul_0_r, Z.add_0_r.
  - rewrite <- fmap_S_seq, <- list_fmap_compose.
    apply list_fmap_ext. intros _ k _. simpl. f_equal. lia.
Qed.

Lemma spec_weeks_lookup (first : Date.t) (n i : nat) (w : list Date.t) :
  spec_weeks first n !! i = Some w ↔
  (i < n)%nat ∧ w = spec_week (first + 7 * Z.of_nat i).
Proof.
  unfold spec_weeks. rewrite list_lookup_fmap.
  destruct (decide (i < n)%nat) as [Hi | Hi].
  - rewrite lookup_seq_lt by done. simpl. split.
    + intros [= <-]. by split.
    + by intros [_ ->].
  - rewrite lookup_seq_ge by lia. simpl. split; [done | intros [? _]; lia].
Qed.

Lemma length_spec_weeks (first : Date.t) (n : nat) :
  length (spec_weeks first n) = n.
Proof. unfold spec_weeks. by rewrite length_fmap, length_seq. Qed.

(** The [while] loop appends one full week per round, as long as the cursor
    is on or before the end date. *)
Lemma weeksLoop_spec (end_ cur : Date.t) (weeks : list (list Date.t)) :
  weeksLoop end_ cur weeks =
  weeks ++ spec_weeks cur (Z.to_nat ((end_ - cur) / 7 + 1)).
Proof.
  funelim (weeksLoop end_ cur weeks).
  - match goal with IH : weeksLoop _ _ _ = _ ++ _ |- _ => rewrite IH end.
    rewrite pushDays_week. simpl. rewrite <- app_assoc. simpl. f_equal.
    replace (Z.to_nat ((end_ - cur) / 7 + 1))
      with (S (Z.to_nat ((end_ - (cur + 7)) / 7 + 1)));
      [by rewrite spec_weeks_S |].
    replace (end_ - cur) with ((end_ - (cur + 7)) + 1 * 7) by lia.
    rewrite Z.div_add by lia.
    assert (-1 <= (end_ - (cur + 7)) / 7).
    { apply Z.div_le_lower_bound; lia. }
    lia.
  - replace (Z.to_nat ((end_ - cur) / 7 + 1)) with 0%nat; [by rewrite app_nil_r |].
    assert ((end_ - cur) / 7 < 0); [| lia].
    apply Z.div_lt_upper_bound; lia.
Qed.

Lemma monday_is_monday (start : Date.t) :
  Date.getDay (spec_monday start) = 1
  ∧ spec_monday start <= start < spec_monday start + 7.
Proof.
  unfold spec_monday, Date.getDay.
  pose proof (Z.mod_pos_bound (start + 4) 7 ltac:(lia)) as Hd.
  pose proof (Z.mod_pos_bound ((start + 4) mod 7 + 6) 7 ltac:(lia)) as Hb.
  split; [| lia].
  pose proof (Z.div_mod (start + 4) 7 ltac:(lia)) as H1.
  pose proof (Z.div_mod ((start + 4) mod 7 + 6) 7 ltac:(lia)) as H2.
  set (a := (start + 4) mod 7) in *. set (b := (a + 6) mod 7) in *.
  replace (start - b + 4) with (1 + ((start + 4) / 7 + (a + 6) / 7 - 1) * 7) by lia.
  by rewrite Z.mod_add by lia.
Qed.

(** [buildWeeks] in closed form: the weeks from the Monday on or before the
    start date, one for every Monday up to the end date. *)
Lemma buildWeeks_spec (start end_ : Date.t) :
  buildWeeks start end_ =
  spec_weeks (spec_monday start) (Z.to_nat ((end_ - spec_monday start) / 7 + 1)).
Proof.
  unfold buildWeeks. rewrite weeksLoop_spec. simpl.
  unfold Date.addDays, JS.rem, spec_monday.
  rewrite Z.rem_mod_nonneg; [done | | lia].
  unfold Date.getDay. pose proof (Z.mod_pos_bound (start + 4) 7 ltac:(lia)). lia.
Qed.

Lemma seqZ_snoc (m d : Z) : 0 <= d - m → seqZ m (d - m) ++ [d] = seqZ m (d + 1 - m).
Proof.
  intros Hm. replace (d + 1 - m) with ((d - m) + 1) by lia.
  rewrite seqZ_app by lia. f_equal.
  rewrite seqZ_cons, seqZ_nil by lia. f_equal. lia.
Qed.

(** The [for] loop of [getWeeks], started inside the week of Monday [m] with
    the days of that week before [d] already pushed: it closes the full
    weeks up to the end date and leaves the days of the last, partial week. *)
Lemma getWeeksLoop_spec (end_ d : Date.t) (week : list Date.t)
    (weeks : list (list Date.t)) (m : Date.t) :
  week = seqZ m (d - m) → 0 <= d - m < 7 → d <= end_ + 1 →
  Part004.getWeeksLoop end_ d week weeks =
  (weeks ++ spec_weeks m (Z.to_nat ((end_ + 1 - m) / 7)),
   seqZ (m + 7 * ((end_ + 1 - m) / 7)) ((end_ + 1 - m) mod 7)).
Proof.
  revert m. funelim (Part004.getWeeksLoop end_ d week weeks); intros m Hweek Hm Hd.
  - assert (d = end_ + 1) as -> by lia.
    rewrite Z.div_small, Z.mod_small by lia. simpl.
    rewrite app_nil_r, Z.add_0_r. by rewrite Hweek.
  - subst week.
    match goal with Hlen : length _ = 7%nat |- _ =>
      pose proof Hlen as Hd6; rewrite seqZ_snoc, length_seqZ in Hd6 by lia end.
    match goal with IH : ∀ m, _ → _ → _ → _ |- _ =>
      rewrite (IH (m + 7)); unfold Date.addDays; [| | lia | lia] end.
    + replace (end_ + 1 - m) with ((end_ + 1 - (m + 7)) + 1 * 7) by lia.
      rewrite Z.div_add, Z.mod_add by lia.
      assert (0 <= (end_ + 1 - (m + 7)) / 7) by (apply Z.div_pos; lia).
      replace (Z.to_nat ((end_ + 1 - (m + 7)) / 7 + 1))
        with (S (Z.to_nat ((end_ + 1 - (m + 7)) / 7))) by lia.
      rewrite spec_weeks_S, <- app_assoc, seqZ_snoc by lia. simpl.
      replace (d + 1 - m) with 7 by lia.
      do 2 f_equal. lia.
    + by rewrite seqZ_nil by lia.
  - subst week.
    match goal with Hlen : length _ ≠ 7%nat |- _ =>
      pose proof Hlen as Hd6; rewrite seqZ_snoc, length_seqZ in Hd6 by lia end.
    match goal with IH : ∀ m, _ → _ → _ → _ |- _ =>
      apply (IH m); unfold Date.addDays; [| lia | lia] end.
    apply seqZ_snoc. lia.
Qed.

(** [getWeeks] in closed form: the same Mondays as [buildWeeks], the last
    week cut after the end date. *)
Lemma getWeeks_spec (start end_ : Date.t) :
  spec_monday start <= end_ + 1 →
  let m := spec_monday start in
  let q := (end_ + 1 - m) / 7 in
  let r := (end_ + 1 - m) mod 7 in
  Part004.getWeeks start end_ =
  spec_weeks m (Z.to_nat q) ++ (if decide (0 < r) then [seqZ (m + 7 * q) r] else []).
Proof.
  intros Hend m q r. unfold Part004.getWeeks.
  assert (Date.addDays start (- JS.rem (Date.getDay start + 6) 7) = m) as ->.
  { unfold Date.addDays, JS.rem, m, spec_monday.
    rewrite Z.rem_mod_nonneg; [done | | lia].
    unfold Date.getDay. pose proof (Z.mod_pos_bound (start + 4) 7 ltac:(lia)). lia. }
  rewrite (getWeeksLoop_spec end_ m [] [] m); [| by rewrite Z.sub_diag | lia | done].
  fold q r. simpl. rewrite length_seqZ.
  pose proof (Z.mod_pos_bound (end_ + 1 - m) 7 ltac:(lia)) as Hr. fold r in Hr.
  destruct (decide (0 < r)) as [Hpos | Hzero].
  - replace (0 <? Z.to_nat r)%nat with true; [done |].
    symmetry. apply Nat.ltb_lt. lia.
  - replace (0 <? Z.to_nat r)%nat with false; [by rewrite app_nil_r |].
    symmetry. apply Nat.ltb_ge. lia.
Qed.

Lemma getDay_add_weeks (d : Date.t) (k : Z) : Date.getDay (d + 7 * k) = Date.getDay d.
Proof.
  unfold Date.getDay. replace (d + 7 * k + 4) with (d + 4 + k * 7) by lia.
  by rewrite Z.mod_add by lia.
Qed.

Lemma week_ends (monday : Date.t) :
  length (spec_week monday) = 7%nat
  ∧ head (spec_week monday) = Some monday
  ∧ last (spec_week monday) = Some (monday + 6).
Proof.
  unfold spec_week. split; [by rewrite length_seqZ |].
  rewrite head_lookup, last_lookup, length_seqZ.
  rewrite !lookup_seqZ_lt by (simpl; lia). simpl.
  by rewrite Z.add_0_r.
Qed.

Lemma buildWeeks_lookup (start end_ : Date.t) (i : nat) (w : list Date.t) :
  buildWeeks start end_ !! i = Some w ↔
  (Z.of_nat i < (end_ - spec_monday start) / 7 + 1)
  ∧ w = spec_week (spec_monday start + 7 * Z.of_nat i).
Proof.
  rewrite buildWeeks_spec, spec_weeks_lookup.
  split; intros [Hi Hw]; (split; [lia | done]).
Qed.

Lemma length_buildWeeks (start end_ : Date.t) :
  length (buildWeeks start end_) = Z.to_nat ((end_ - spec_monday start) / 7 + 1).
Proof. by rewrite buildWeeks_spec, length_spec_weeks. Qed.

Lemma concat_spec_weeks (first : Date.t) (n : nat) :
  concat (spec_weeks first n) = seqZ first (7 * Z.of_nat n).
Proof.
  revert first. induction n as [| n IH]; intros first.
  - by rewrite seqZ_nil.
  - rewrite spec_weeks_S. cbn [concat]. rewrite IH. unfold spec_week.
    replace (7 * Z.of_nat (S n)) with (7 + 7 * Z.of_nat n) by lia.
    by rewrite seqZ_app by lia.
Qed.

(** C4 as stated fails: a start date after the end date still yields the
    week of the start date when the end date is on or after that week's
    Monday (start Wednesday 2025-01-15, end Tuesday 2025-01-14). *)
Lemma buildWeeks_start_after_end_one_week :
  Date.make 2025 0 14 < Date.make 2025 0 15
  ∧ buildWeeks (Date.make 2025 0 15) (Date.make 2025 0 14)
    = [spec_week (Date.make 2025 0 13)]
  ∧ buildWeeks (Date.make 2025 0 15) (Date.make 2025 0 14) ≠ [].
Proof. split_and!; [reflexivity | reflexivity | discriminate]. Qed.

(** C4, amended.  With the start date strictly after the end date,
    [buildWeeks] produces the empty sequence exactly when the end date is
    before the Monday on or before the start date; otherwise it produces one
    week, the week of the start date. *)
Theorem buildWeeks_start_after_end (start end_ : Date.t) :
  end_ < start →
  (buildWeeks start end_ = [] ↔ end_ < spec_monday start)
  ∧ (end_ < spec_monday start → buildWeeks start end_ = [])
  ∧ (spec_monday start <= end_ →
     buildWeeks start end_ = [spec_week (spec_monday start)]).
Proof.
  intros Hlt. pose proof (monday_is_monday start) as [_ Hm].
  rewrite buildWeeks_spec.
  assert (end_ < spec_monday start →
          Z.to_nat ((end_ - spec_monday start) / 7 + 1) = 0%nat) as Hempty.
  { intros Hb. assert ((end_ - spec_monday start) / 7 < 0); [| lia].
    apply Z.div_lt_upper_bound; lia. }
  assert (spec_monday start <= end_ →
          Z.to_nat ((end_ - spec_monday start) / 7 + 1) = 1%nat) as Hone.
  { intros Hb. rewrite Z.div_small by lia. done. }
  split_and!.
  - split.
    + intros Hnil. destruct (decide (end_ < spec_monday start)) as [| Hge]; [done |].
      rewrite Hone in Hnil by lia. discriminate Hnil.
    + intros Hb. by rewrite Hempty.
  - intros Hb. by rewrite Hempty.
  - intros Hb. rewrite Hone by done. unfold spec_weeks. simpl.
    by rewrite Z.add_0_r.
Qed.

Lemma buildWeeks_start_after_end_witness :
  buildWeeks (Date.make 2025 0 15) (Date.make 2025 0 5) = [].
Proof.
  apply (buildWeeks_start_after_end (Date.make 2025 0 15) (Date.make 2025 0 5));
    reflexivity.
Defined.

Lemma getWeeks_lookup (start end_ : Date.t) (i : nat) (w : list Date.t) :
  spec_monday start <= end_ + 1 →
  Part004.getWeeks start end_ !! i = Some w ↔
  spec_monday start + 7 * Z.of_nat i <= end_
  ∧ w = seqZ (spec_monday start + 7 * Z.of_nat i)
             (Z.min 7 (end_ + 1 - (spec_monday start + 7 * Z.of_nat i))).
Proof.
  intros Hend. rewrite (getWeeks_spec start end_ Hend). cbv zeta.
  set (m := spec_monday start).
  pose proof (Z.div_mod (end_ + 1 - m) 7 ltac:(lia)) as Hdm.
  pose proof (Z.mod_pos_bound (end_ + 1 - m) 7 ltac:(lia)) as Hr.
  assert (0 <= (end_ + 1 - m) / 7) as Hq by (apply Z.div_pos; lia).
  set (q := (end_ + 1 - m) / 7) in *. set (r := (end_ + 1 - m) mod 7) in *.
  destruct (decide (i < Z.to_nat q)%nat) as [Hi | Hi].
  - rewrite lookup_app_l by (rewrite length_spec_weeks; lia).
    rewrite spec_weeks_lookup. unfold spec_week.
    rewrite Z.min_l by lia. split; intros [_ ->]; (split; [lia | done]).
  - rewrite lookup_app_r by (rewrite length_spec_weeks; lia).
    rewrite length_spec_weeks.
    destruct (decide (0 < r)) as [Hpos | Hzero].
    + destruct (decide (i = Z.to_nat q)) as [-> | Hne].
      * rewrite Nat.sub_diag, Z2Nat.id by done. simpl.
        rewrite Z.min_r by lia.
        replace (end_ + 1 - (m + 7 * q)) with r by lia.
        split; [intros [= <-]; split; [lia | done] | by intros [_ ->]].
      * replace (i - Z.to_nat q)%nat with (S (i - Z.to_nat q - 1)) by lia.
        simpl. split; [done | intros [Hle _]; lia].
    + rewrite lookup_nil. split; [done | intros [Hle _]; lia].
Qed.

Lemma length_getWeeks (start end_ : Date.t) :
  spec_monday start <= end_ + 1 →
  length (Part004.getWeeks start end_) = length (buildWeeks start end_).
Proof.
  intros Hend. rewrite length_buildWeeks, (getWeeks_spec start end_ Hend). cbv zeta.
  set (m := spec_monday start).
  pose proof (Z.div_mod (end_ + 1 - m) 7 ltac:(lia)) as Hdm.
  pose proof (Z.mod_pos_bound (end_ + 1 - m) 7 ltac:(lia)) as Hr.
  assert (0 <= (end_ + 1 - m) / 7) as Hq by (apply Z.div_pos; lia).
  rewrite length_app, length_spec_weeks.
  set (q := (end_ + 1 - m) / 7) in *. set (r := (end_ + 1 - m) mod 7) in *.
  destruct (decide (0 < r)) as [Hpos | Hzero]; simpl.
  - replace (end_ - m) with ((r - 1) + q * 7) by lia.
    rewrite Z.div_add, Z.div_small by lia. lia.
  - replace (end_ - m) with (6 + (q - 1) * 7) by lia.
    rewrite Z.div_add by lia. change (6 / 7) with 0. lia.
Qed.

(** C5 as stated fails on [getWeeks] of part_004: its last week stops at
    the end date (Monday 2025-01-13 to Tuesday 2025-01-14 gives one week of
    two dates). *)
Lemma getWeeks_truncates_last_week :
  Date.make 2025 0 13 <= Date.make 2025 0 14
  ∧ Part004.getWeeks (Date.make 2025 0 13) (Date.make 2025 0 14)
    = [[Date.make 2025 0 13; Date.make 2025 0 14]]
  ∧ ∃ w, last (Part004.getWeeks (Date.make 2025 0 13) (Date.make 2025 0 14)) = Some w
         ∧ length w ≠ 7%nat.
Proof.
  split_and!; [discriminate | reflexivity |].
  eexists. split; [reflexivity | discriminate].
Qed.

(** C5, amended.  For a start date on or before the end date:
    [buildWeeks] produces weeks of exactly 7 consecutive dates, the first
    beginning on the Monday on or before the start date and the last one
    complete and containing the end date; [getWeeks] of part_004 produces
    the same number of weeks beginning on the same Mondays, each running for
    7 consecutive dates or up to the end date, whichever comes first, so
    that only its last week can be shorter. *)
Theorem weeks_seven_days_from_monday (start end_ : Date.t) :
  start <= end_ →
  let m := spec_monday start in
  Date.getDay m = 1 ∧ m <= start < m + 7
  ∧ (∀ i w, buildWeeks start end_ !! i = Some w →
       w = seqZ (m + 7 * Z.of_nat i) 7 ∧ length w = 7%nat
       ∧ Date.getDay (m + 7 * Z.of_nat i) = 1)
  ∧ (∃ w, head (buildWeeks start end_) = Some w ∧ head w = Some m)
  ∧ (∃ w, last (buildWeeks start end_) = Some w ∧ length w = 7%nat ∧ end_ ∈ w)
  ∧ length (Part004.getWeeks start end_) = length (buildWeeks start end_)
  ∧ (∀ i w, Part004.getWeeks start end_ !! i = Some w →
       w = seqZ (m + 7 * Z.of_nat i) (Z.min 7 (end_ + 1 - (m + 7 * Z.of_nat i)))
       ∧ (1 <= length w <= 7)%nat
       ∧ ((S i < length (Part004.getWeeks start end_))%nat → length w = 7%nat))
  ∧ (∃ w, head (Part004.getWeeks start end_) = Some w ∧ head w = Some m)
  ∧ (∃ w, last (Part004.getWeeks start end_) = Some w ∧ last w = Some end_).
Proof.
  intros Hle m. pose proof (monday_is_monday start) as [Hday Hm]. fold m in Hday, Hm.
  assert (m <= end_ + 1) as Hend by lia.
  pose proof (length_buildWeeks start end_) as Hlen. fold m in Hlen.
  pose proof (length_getWeeks start end_ Hend) as Hlen4.
  pose proof (Z.div_mod (end_ - m) 7 ltac:(lia)) as Hdm.
  pose proof (Z.mod_pos_bound (end_ - m) 7 ltac:(lia)) as Hr.
  assert (0 <= (end_ - m) / 7) as Hq by (apply Z.div_pos; lia).
  set (k := (end_ - m) / 7) in *.
  split; [done |]. split; [lia |]. split_and!; [| | | done | | |].
  - intros i w [Hi ->]%buildWeeks_lookup. fold m. unfold spec_week.
    split_and!; [done | by rewrite length_seqZ | by rewrite getDay_add_weeks].
  - exists (spec_week m). rewrite head_lookup. split; [| apply week_ends].
    apply buildWeeks_lookup. fold m k. split; [lia |].
    by rewrite Z.mul_0_r, Z.add_0_r.
  - exists (spec_week (m + 7 * k)). rewrite last_lookup, Hlen. split_and!.
    + apply buildWeeks_lookup. fold m k. split; [lia |]. f_equal. lia.
    + apply week_ends.
    + apply elem_of_seqZ. lia.
  - intros i w [Hi ->]%getWeeks_lookup; [| done]. fold m in Hi |- *.
    split; [done |]. rewrite length_seqZ. split; [lia |].
    rewrite Hlen4, Hlen. intros HS.
    assert (Z.of_nat i < k) as Hik by lia. lia.
  - exists (seqZ m (Z.min 7 (end_ + 1 - m))). rewrite !head_lookup. split.
    + apply getWeeks_lookup; [done |]. fold m.
      rewrite Z.mul_0_r, Z.add_0_r. split; [lia | done].
    + rewrite lookup_seqZ_lt by lia. by rewrite Z.add_0_r.
  - exists (seqZ (m + 7 * k) (Z.min 7 (end_ + 1 - (m + 7 * k)))).
    rewrite !last_lookup, Hlen4, Hlen, length_seqZ. split.
    + apply getWeeks_lookup; [done |]. fold m.
      replace (Z.of_nat (Nat.pred (Z.to_nat (k + 1)))) with k by lia.
      split; [lia | done].
    + rewrite Z.min_r by lia. rewrite lookup_seqZ_lt by lia. f_equal. lia.
Qed.

Lemma weeks_seven_days_from_monday_witness :
  ∃ w, last (buildWeeks START_DATE END_DATE) = Some w
       ∧ length w = 7%nat ∧ END_DATE ∈ w.
Proof.
  destruct (weeks_seven_days_from_monday START_DATE END_DATE) as
    (_ & _ & _ & _ & Hlast & _).
  - vm_compute. discriminate.
  - exact Hlast.
Defined.

(** The weeks of [getWeeks] join up as well: flattened, they are the days
    from the first Monday to the end date. *)
Lemma getWeeks_concat (start end_ : Date.t) :
  spec_monday start <= end_ + 1 →
  concat (Part004.getWeeks start end_) =
  seqZ (spec_monday start) (end_ + 1 - spec_monday start).
Proof.
  intros Hend. rewrite (getWeeks_spec start end_ Hend). cbv zeta.
  set (m := spec_monday start).
  pose proof (Z.div_mod (end_ + 1 - m) 7 ltac:(lia)) as Hdm.
  pose proof (Z.mod_pos_bound (end_ + 1 - m) 7 ltac:(lia)) as Hr.
  assert (0 <= (end_ + 1 - m) / 7) as Hq by (apply Z.div_pos; lia).
  rewrite concat_app, concat_spec_weeks, Z2Nat.id by done.
  set (q := (end_ + 1 - m) / 7) in *. set (r := (end_ + 1 - m) mod 7) in *.
  replace (seqZ m (end_ + 1 - m)) with (seqZ m (7 * q + r)) by (f_equal; lia).
  rewrite seqZ_app by lia. f_equal.
  destruct (decide (0 < r)); simpl.
  - by rewrite app_nil_r.
  - by rewrite seqZ_nil by lia.
Qed.

(** C10. The weeks of [buildWeeks] join up: the first date of every next
    week (a Monday) is the day after the last date of the week before it (a
    Sunday), and the flattened dates are one run of consecutive calendar
    days starting at the Monday on or before the start date. *)
Theorem buildWeeks_contiguous (start end_ : Date.t) :
  start <= end_ →
  let weeks := buildWeeks start end_ in
  (∀ i w w', weeks !! i = Some w → weeks !! S i = Some w' →
     ∃ sunday monday,
       last w = Some sunday ∧ head w' = Some monday
       ∧ monday = Date.addDays sunday 1
       ∧ Date.getDay sunday = 0 ∧ Date.getDay monday = 1)
  ∧ concat weeks = seqZ (spec_monday start) (7 * Z.of_nat (length weeks))
  ∧ (0 < length weeks)%nat
  ∧ ∀ j d d', concat weeks !! j = Some d → concat weeks !! S j = Some d' →
      d' = Date.addDays d 1.
Proof.
  intros Hle weeks. pose proof (monday_is_monday start) as [Hday Hm].
  assert (concat weeks = seqZ (spec_monday start) (7 * Z.of_nat (length weeks)))
    as Hcat.
  { unfold weeks. rewrite buildWeeks_spec, concat_spec_weeks.
    by rewrite length_spec_weeks. }
  split_and!; [| done | |].
  - intros i w w' [Hi ->]%buildWeeks_lookup [Hi' ->]%buildWeeks_lookup.
    set (m := spec_monday start + 7 * Z.of_nat i).
    destruct (week_ends m) as (_ & _ & Hlast).
    destruct (week_ends (spec_monday start + 7 * Z.of_nat (S i))) as (_ & Hhead & _).
    exists (m + 6), (spec_monday start + 7 * Z.of_nat (S i)).
    split_and!; [done | done | unfold Date.addDays, m; lia | |].
    + unfold m. replace (spec_monday start + 7 * Z.of_nat i + 6)
        with (spec_monday start + 6 + 7 * Z.of_nat i) by lia.
      rewrite getDay_add_weeks. unfold Date.getDay in *.
      replace (spec_monday start + 6 + 4) with (spec_monday start + 4 - 1 + 1 * 7) by lia.
      rewrite Z.mod_add by lia.
      pose proof (Z.div_mod (spec_monday start + 4) 7 ltac:(lia)) as Hdm.
      replace (spec_monday start + 4 - 1)
        with (0 + ((spec_monday start + 4) / 7) * 7) by lia.
      by rewrite Z.mod_add by lia.
    + by rewrite getDay_add_weeks.
  - unfold weeks. rewrite length_buildWeeks.
    assert (0 <= (end_ - spec_monday start) / 7) by (apply Z.div_pos; lia). lia.
  - rewrite Hcat. intros j d d' [-> _]%lookup_seqZ [-> _]%lookup_seqZ.
    unfold Date.addDays. lia.
Qed.

Lemma buildWeeks_contiguous_witness :
  concat (buildWeeks START_DATE END_DATE) =
  seqZ (spec_monday START_DATE)
       (7 * Z.of_nat (length (buildWeeks START_DATE END_DATE))).
Proof.
  apply (buildWeeks_contiguous START_DATE END_DATE).
  vm_compute. discriminate.
Defined.

(** * Further properties of the engine *)

(** ** The calendar grid *)

(** X1. For a start date on or before the end date, the dates of the weeks
    of [buildWeeks], taken together, contain every date of the range, contain
    no date twice, and reach at most 6 days before the start date and at most
    6 days past the end date. *)
Theorem buildWeeks_covers_range (start end_ : Date.t) :
  start <= end_ →
  let days := concat (buildWeeks start end_) in
  NoDup days
  ∧ (∀ d, start <= d <= end_ → d ∈ days)
  ∧ (∀ d, d ∈ days → start - 6 <= d <= end_ + 6)
  ∧ length days = (7 * length (buildWeeks start end_))%nat.
Proof.
  intros Hle days. pose proof (monday_is_monday start) as [_ Hm].
  assert (days = seqZ (spec_monday start)
                   (7 * Z.of_nat (length (buildWeeks start end_)))) as ->.
  { unfold days. rewrite buildWeeks_spec, concat_spec_weeks.
    by rewrite length_spec_weeks. }
  rewrite length_buildWeeks.
  pose proof (Z.div_mod (end_ - spec_monday start) 7 ltac:(lia)) as Hdm.
  pose proof (Z.mod_pos_bound (end_ - spec_monday start) 7 ltac:(lia)) as Hr.
  assert (0 <= (end_ - spec_monday start) / 7) as Hq by (apply Z.div_pos; lia).
  split_and!.
  - apply NoDup_seqZ.
  - intros d Hd. apply elem_of_seqZ. lia.
  - intros d Hd%elem_of_seqZ. lia.
  - rewrite length_seqZ. lia.
Qed.

Lemma buildWeeks_covers_range_witness :
  END_DATE ∈ concat (buildWeeks START_DATE END_DATE).
Proof.
  destruct (buildWeeks_covers_range START_DATE END_DATE) as (_ & Hin & _).
  - vm_compute. discriminate.
  - apply Hin. split; vm_compute; discriminate.
Defined.

Lemma filter_all_pass {A : Type} (P : A → Prop) `{!∀ x, Decision (P x)}
    (l : list A) :
  Forall P l → filter P l = l.
Proof.
  induction 1 as [| x l Hx _ IH]; [done |].
  by rewrite filter_cons_True, IH.
Qed.

Lemma filter_seqZ_le (a n end_ : Z) :
  0 <= n →
  filter (λ d, d <= end_) (seqZ a n) = seqZ a (Z.max 0 (Z.min n (end_ + 1 - a))).
Proof.
  intros Hn.
  set (k := Z.max 0 (Z.min n (end_ + 1 - a))).
  replace n with (k + (n - k)) at 1 by lia.
  rewrite seqZ_app, filter_app by lia.
  rewrite (filter_all_fail _ (seqZ (a + k) (n - k))), app_nil_r.
  - apply filter_all_pass, Forall_seqZ. lia.
  - apply Forall_seqZ. lia.
Qed.

Lemma getWeeks_before_monday (start end_ : Date.t) :
  end_ < spec_monday start → Part004.getWeeks start end_ = [].
Proof.
  intros Hlt. unfold Part004.getWeeks.
  assert (Date.addDays start (- JS.rem (Date.getDay start + 6) 7) = spec_monday start)
    as ->.
  { unfold Date.addDays, JS.rem, spec_monday.
    rewrite Z.rem_mod_nonneg; [done | | lia].
    unfold Date.getDay. pose proof (Z.mod_pos_bound (start + 4) 7 ltac:(lia)). lia. }
  simp getWeeksLoop. destruct (decide (spec_monday start <= end_)); [lia | done].
Qed.

Lemma getWeeks_cut (start end_ : Date.t) :
  Part004.getWeeks start end_ =
  filter (λ d, d <= end_) <$> buildWeeks start end_.
Proof.
  destruct (decide (end_ < spec_monday start)) as [Hlt | Hge].
  - rewrite getWeeks_before_monday by done.
    rewrite buildWeeks_spec.
    replace (Z.to_nat ((end_ - spec_monday start) / 7 + 1)) with 0%nat; [done |].
    assert ((end_ - spec_monday start) / 7 < 0); [| lia].
    apply Z.div_lt_upper_bound; lia.
  - assert (spec_monday start <= end_ + 1) as Hend by lia.
    apply list_eq. intros i. rewrite list_lookup_fmap.
    destruct (buildWeeks start end_ !! i) as [w |] eqn:Hb; simpl.
    + apply buildWeeks_lookup in Hb as [Hi ->].
      apply getWeeks_lookup; [done |].
      pose proof (Z.div_mod (end_ - spec_monday start) 7 ltac:(lia)) as Hdm.
      pose proof (Z.mod_pos_bound (end_ - spec_monday start) 7 ltac:(lia)) as Hr.
      split; [lia |]. unfold spec_week. rewrite filter_seqZ_le by lia.
      f_equal. lia.
    + destruct (Part004.getWeeks start end_ !! i) as [w |] eqn:Hg; [| done].
      apply getWeeks_lookup in Hg as [Hi _]; [| done].
      assert (is_Some (buildWeeks start end_ !! i)) as [w' Hw'];
        [| congruence].
      eexists. apply buildWeeks_lookup. split; [| done].
      pose proof (Z.div_mod (end_ - spec_monday start) 7 ltac:(lia)) as Hdm.
      pose proof (Z.mod_pos_bound (end_ - spec_monday start) 7 ltac:(lia)) as Hr.
      lia.
Qed.

(** X2. [getWeeks] of part_004 is [buildWeeks] with every week cut after the
    end date: for all start and end dates its weeks are the weeks of
    [buildWeeks], each restricted to the dates on or before the end date. *)
Theorem getWeeks_is_buildWeeks_cut (start end_ : Date.t) :
  Part004.getWeeks start end_ =
  filter (λ d, d <= end_) <$> buildWeeks start end_
  ∧ length (Part004.getWeeks start end_) = length (buildWeeks start end_)
  ∧ ∀ w, w ∈ Part004.getWeeks start end_ → ∀ d, d ∈ w → d <= end_.
Proof.
  rewrite getWeeks_cut. split_and!; [done | by rewrite length_fmap |].
  intros w [w7 [-> _]]%list_elem_of_fmap d [Hd _]%list_elem_of_filter. done.
Qed.

Lemma seqZ_seven (a : Z) :
  seqZ a 7 = [a; a + 1; a + 2; a + 3; a + 4; a + 5; a + 6].
Proof.
  do 7 (rewrite seqZ_cons by lia; simpl Z.pred).
  rewrite seqZ_nil by lia. unfold Z.succ.
  rewrite <- !Z.add_assoc. reflexivity.
Qed.

Lemma getDay_shift (d k : Z) :
  Date.getDay d = 1 → 0 <= k < 7 → Date.getDay (d + k) = (1 + k) mod 7.
Proof.
  unfold Date.getDay. intros Hd Hk.
  replace (d + k + 4) with ((d + 4) + k) by lia.
  rewrite Z.add_mod, Hd by lia. by rewrite (Z.mod_small k) by lia.
Qed.

(** X3. Every week of [buildWeeks], for any start and end date, is shaded
    by [getBg] in the same way, column by column: Monday, Wednesday and
    Friday transparent, Tuesday and Thursday grey, Saturday green, Sunday
    blue. *)
Theorem getBg_columns (start end_ : Date.t) (w : list Date.t) :
  w ∈ buildWeeks start end_ →
  getBg <$> w =
  ["transparent"; "#F5F5F5"; "transparent"; "#F5F5F5"; "transparent";
   "#E6F9E6"; "#E6F0FF"].
Proof.
  intros [i [Hi ->]%buildWeeks_lookup]%list_elem_of_lookup.
  pose proof (monday_is_monday start) as [Hday _].
  assert (Date.getDay (spec_monday start + 7 * Z.of_nat i) = 1) as Hd
    by by rewrite getDay_add_weeks.
  set (m := spec_monday start + 7 * Z.of_nat i) in *.
  unfold spec_week. rewrite seqZ_seven. cbn [fmap list_fmap]. unfold getBg.
  rewrite Hd, !getDay_shift by (done || lia).
  reflexivity.
Qed.

Lemma getBg_columns_witness :
  getBg <$> spec_week (Date.make 2024 6 1) =
  ["transparent"; "#F5F5F5"; "transparent"; "#F5F5F5"; "transparent";
   "#E6F9E6"; "#E6F0FF"].
Proof.
  apply (getBg_columns START_DATE END_DATE).
  apply list_elem_of_lookup. exists 0%nat. reflexivity.
Defined.

(** X4. In part_004 the [bgColors] table is keyed by [getDay()], so each
    week of [getWeeks] is shaded, column by column, grey on Monday and
    Wednesday, green on Friday and blue on Sunday, the other days
    transparent; a week cut at the end date gets the leading part of that
    pattern. *)
Theorem dayCellBackground_columns (start end_ : Date.t) (w : list Date.t) :
  w ∈ Part004.getWeeks start end_ →
  Part004.dayCellBackground <$> w =
  take (length w)
    ["#f5f5f5"; "transparent"; "#f5f5f5"; "transparent"; "#e6f9e6";
     "transparent"; "#e6f0ff"].
Proof.
  rewrite getWeeks_cut.
  intros [w7 [-> Hw7]]%list_elem_of_fmap.
  apply list_elem_of_lookup in Hw7 as [i [Hi ->]%buildWeeks_lookup].
  pose proof (monday_is_monday start) as [Hday _].
  assert (Date.getDay (spec_monday start + 7 * Z.of_nat i) = 1) as Hd
    by by rewrite getDay_add_weeks.
  set (m := spec_monday start + 7 * Z.of_nat i) in *.
  assert (Part004.dayCellBackground <$> spec_week m =
          ["#f5f5f5"; "transparent"; "#f5f5f5"; "transparent"; "#e6f9e6";
           "transparent"; "#e6f0ff"]) as Hfull.
  { unfold spec_week. rewrite seqZ_seven. cbn [fmap list_fmap].
    unfold Part004.dayCellBackground.
    rewrite Hd, !getDay_shift by (done || lia).
    reflexivity. }
  unfold spec_week in *. rewrite filter_seqZ_le by lia.
  set (k := Z.max 0 (Z.min 7 (end_ + 1 - m))).
  assert (seqZ m 7 = seqZ m k ++ seqZ (m + k) (7 - k)) as Hsplit.
  { rewrite <- seqZ_app by lia. f_equal. lia. }
  rewrite <- Hfull, Hsplit, fmap_app.
  rewrite take_app_length'; [done |].
  by rewrite !length_fmap.
Qed.

Lemma dayCellBackground_columns_witness :
  Part004.dayCellBackground <$> [Date.make 2025 0 13; Date.make 2025 0 14] =
  ["#f5f5f5"; "transparent"].
Proof.
  apply (dayCellBackground_columns (Date.make 2025 0 13) (Date.make 2025 0 14)).
  apply list_elem_of_lookup. exists 0%nat. reflexivity.
Defined.

Lemma getAllDatesLoop_spec (end_ d : Date.t) (dates : list Date.t) :
  Part004.getAllDatesLoop end_ d dates = dates ++ seqZ d (end_ - d + 1).
Proof.
  funelim (Part004.getAllDatesLoop end_ d dates).
  - match goal with IH : Part004.getAllDatesLoop _ _ _ = _ ++ _ |- _ => rewrite IH end.
    unfold Date.addDays. rewrite <- app_assoc. f_equal.
    rewrite (seqZ_cons d) by lia. simpl. f_equal. f_equal; lia.
  - by rewrite seqZ_nil, app_nil_r by lia.
Qed.

(** X5. [getAllDates(start, end)] of part_004 is the run of consecutive
    days from start to end (empty when start is after end), and the weeks of
    [getWeeks], flattened, are the days from the Monday on or before the
    start date up to the start date followed by exactly those dates. *)
Theorem getAllDates_spec (start end_ : Date.t) :
  Part004.getAllDates start end_ = seqZ start (end_ - start + 1)
  ∧ length (Part004.getAllDates start end_) = Z.to_nat (end_ - start + 1)
  ∧ (end_ < start → Part004.getAllDates start end_ = [])
  ∧ (start <= end_ →
     concat (Part004.getWeeks start end_) =
     seqZ (spec_monday start) (start - spec_monday start)
     ++ Part004.getAllDates start end_).
Proof.
  unfold Part004.getAllDates. rewrite getAllDatesLoop_spec. simpl.
  split_and!; [done | by rewrite length_seqZ | |].
  - intros Hlt. by rewrite seqZ_nil by lia.
  - intros Hle. pose proof (monday_is_monday start) as [_ Hm].
    rewrite getWeeks_concat by lia.
    replace (start + (spec_monday start - start)) with (spec_monday start) by lia.
    replace (end_ + 1 - spec_monday start)
      with ((start - spec_monday start) + (end_ - start + 1)) by lia.
    rewrite seqZ_app by lia. do 2 f_equal. lia.
Qed.

Lemma getAllDates_spec_witness :
  Part004.getAllDates (Date.make 2025 0 15) (Date.make 2025 0 14) = [].
Proof.
  apply (getAllDates_spec (Date.make 2025 0 15) (Date.make 2025 0 14)).
  reflexivity.
Defined.

(** ** The weather index and the weather rows *)

Lemma lookupRecord_sound (data : list WeatherRecord) (key : string)
    (hr : option Z) (r : WeatherRecord) :
  lookupRecord (metarLookup data) key hr = Some r →
  r ∈ data ∧ JS.slice (local_time r) 0 10 = key ∧ getHours (local_time r) = hr.
Proof.
  rewrite lookupRecord_metarLookup.
  intros [Hb Hin]%last_Some_elem_of%list_elem_of_filter.
  unfold bucket in Hb. by injection Hb as <- <-.
Qed.

(** The day map of a date: absent when the source has no record of that
    date, and never empty when present. *)
Lemma metarLookup_day (data : list WeatherRecord) (key : string) :
  match metarLookup data !! key with
  | Some day =>
      (∃ r, r ∈ data ∧ JS.slice (local_time r) 0 10 = key)
      ∧ day ≠ ∅
      ∧ ∀ hr, day !! hr = lookupRecord (metarLookup data) key hr
  | None => ∀ r, r ∈ data → JS.slice (local_time r) 0 10 ≠ key
  end.
Proof.
  induction data as [| r data IH] using rev_ind.
  - unfold metarLookup. simpl. rewrite lookup_empty.
    intros r Hr. by apply elem_of_nil in Hr.
  - rewrite metarLookup_snoc. unfold metarLookup_step at 1.
    destruct (decide (JS.slice (local_time r) 0 10 = key)) as [<- | Hne].
    + rewrite lookup_insert_eq. split_and!.
      * exists r. split; [| done]. apply elem_of_app. right. apply list_elem_of_here.
      * apply insert_non_empty.
      * intros hr. unfold lookupRecord, metarLookup_step.
        by rewrite lookup_insert_eq.
    + rewrite lookup_insert_ne by done.
      destruct (metarLookup data !! key) as [day |] eqn:Hday.
      * destruct IH as ((r0 & Hr0 & Hk) & Hne' & Hlk). split_and!.
        -- exists r0. split; [| done]. apply elem_of_app. by left.
        -- done.
        -- intros hr. rewrite Hlk. unfold lookupRecord, metarLookup_step.
           by rewrite lookup_insert_ne, Hday by done.
      * intros r0 [Hr0 | Hr0%list_elem_of_singleton]%elem_of_app.
        -- by apply IH.
        -- by subst r0.
Qed.

Lemma last_filter_permutation {A : Type} (P : A → Prop)
    `{!∀ x, Decision (P x)} (l l' : list A) :
  (length (filter P l) <= 1)%nat → l ≡ₚ l' →
  last (filter P l) = last (filter P l').
Proof.
  intros Hlen Hperm.
  assert (filter P l ≡ₚ filter P l') as Hf by by rewrite Hperm.
  destruct (filter P l) as [| x [| y k]]; simpl in Hlen; [| | lia].
  - apply Permutation_nil_l in Hf. by rewrite <- Hf.
  - apply Permutation_singleton_l in Hf. by rewrite <- Hf.
Qed.

Lemma filter_bucket_unique (data : list WeatherRecord) (b : string * option Z) :
  NoDup (bucket <$> data) → (length (filter (λ r, bucket r = b) data) <= 1)%nat.
Proof.
  induction data as [| r data IH]; [intros _; simpl; lia |].
  rewrite fmap_cons, NoDup_cons. intros [Hnin Hnd].
  rewrite filter_cons. case_decide as Hb; [| by apply IH].
  rewrite (filter_all_fail _ data); [simpl; lia |].
  apply Forall_forall. intros r' Hr' Hb'. apply Hnin.
  apply list_elem_of_fmap. exists r'. split; [congruence | done].
Qed.

(** X6. When no two records of the weather dataset share a (date, hour),
    the index does not depend on the order of the dataset: any reordering of
    the records builds the same index. *)
Theorem metarLookup_order_independent (data data' : list WeatherRecord) :
  NoDup (bucket <$> data) → data ≡ₚ data' →
  metarLookup data = metarLookup data'.
Proof.
  intros Hnd Hperm.
  assert (∀ key hr, lookupRecord (metarLookup data) key hr =
                    lookupRecord (metarLookup data') key hr) as Hlk.
  { intros key hr. rewrite !lookupRecord_metarLookup.
    apply last_filter_permutation; [| done]. by apply filter_bucket_unique. }
  apply map_eq. intros key.
  pose proof (metarLookup_day data key) as H1.
  pose proof (metarLookup_day data' key) as H2.
  destruct (metarLookup data !! key) as [day |] eqn:Hd,
           (metarLookup data' !! key) as [day' |] eqn:Hd'.
  - f_equal. apply map_eq. intros hr.
    destruct H1 as (_ & _ & ->), H2 as (_ & _ & ->). apply Hlk.
  - destruct H1 as ((r & Hr & Hk) & _). exfalso.
    apply (H2 r); [by rewrite <- Hperm | done].
  - destruct H2 as ((r & Hr & Hk) & _). exfalso.
    apply (H1 r); [by rewrite Hperm | done].
  - done.
Qed.

Lemma metarLookup_order_independent_witness :
  let a := {| local_time := "2025-01-01T05:00"; flight_category := "VFR";
              temp_C := JS.Num 1 |} in
  let b := {| local_time := "2025-01-01T06:00"; flight_category := "IFR";
              temp_C := JS.Null |} in
  metarLookup [a; b] = metarLookup [b; a].
Proof.
  intros a b. apply metarLookup_order_independent.
  - apply (bool_decide_unpack _). by vm_compute.
  - apply Permutation_swap.
Defined.

Lemma day_entries (metarData : list WeatherRecord) (key : string)
    (hr : option Z) (r : WeatherRecord) :
  default ∅ (metarLookup metarData !! key) !! hr = Some r ↔
  lookupRecord (metarLookup metarData) key hr = Some r.
Proof.
  unfold lookupRecord.
  destruct (metarLookup metarData !! key) as [day |]; simpl; [done |].
  by rewrite lookup_empty.
Qed.

Lemma digits_value_nonneg (s : string) (acc v : Z) :
  JS.digits_value s acc = Some v → 0 <= acc → 0 <= v.
Proof.
  revert acc. induction s as [| c s IH]; intros acc; simpl.
  - intros [= <-]. done.
  - unfold JS.digit_of.
    destruct (_ && _) eqn:Hd; [| done].
    apply andb_true_iff in Hd as [H1%Z.leb_le H2%Z.leb_le].
    intros Hv Hacc. apply (IH _ Hv). lia.
Qed.

Lemma getHours_range (s : string) (h : Z) : getHours s = Some h → 0 <= h < 24.
Proof.
  unfold getHours. destruct (_ && _); [| done].
  destruct (if (String.length (JS.slice s 0 4) =? 4)%nat then _ else _); [| done].
  simpl. destruct (two_digits (JS.slice s 5 7)); [| done].
  simpl. destruct (two_digits (JS.slice s 8 10)); [| done].
  simpl. destruct (two_digits (JS.slice s 11 13)) as [h' |] eqn:Hh; [| done].
  simpl. destruct (two_digits (JS.slice s 14 16)) as [mi |]; [| done].
  simpl. destruct (if (String.length s =? 19)%nat then _ else _); [| done].
  simpl. destruct (_ && _) eqn:Hr; [| done].
  intros [= <-]. apply andb_true_iff in Hr as [H1%Z.ltb_lt _].
  split; [| done].
  unfold two_digits in Hh. destruct (_ =? _)%nat; [| done].
  by apply (digits_value_nonneg (JS.slice s 11 13) 0 h').
Qed.

(** X7. The flight-category row and the temperature row of a day hold, when
    their layer is shown, one segment for every distinct hour that the
    weather dataset records for that date, each segment made from the record
    that the index holds for that hour; when the layer is hidden, or the
    dataset has no record of the date, the row is empty. *)
Theorem weather_rows_one_segment_per_hour (metarData : list WeatherRecord)
    (hourPx : Q) (d : Date.t) :
  let key := Date.isoKey d in
  let hours : gset (option Z) :=
    list_to_set ((λ r, getHours (local_time r)) <$>
                   filter (λ r, JS.slice (local_time r) 0 10 = key) metarData) in
  Part005.flightCategoryRow metarData hourPx false d = []
  ∧ Part005.temperatureRow metarData hourPx false d = []
  ∧ length (Part005.flightCategoryRow metarData hourPx true d) = size hours
  ∧ length (Part005.temperatureRow metarData hourPx true d) = size hours
  ∧ (∀ seg, seg ∈ Part005.flightCategoryRow metarData hourPx true d ↔
       ∃ hr rec, lookupRecord (metarLookup metarData) key hr = Some rec
         ∧ seg = {| seg_left := (λ h, inject_Z h * hourPx)%Q <$> hr;
                    seg_width := hourPx;
                    seg_color := flightCategoryColor !! flight_category rec |})
  ∧ (∀ seg, seg ∈ Part005.temperatureRow metarData hourPx true d ↔
       ∃ hr rec, lookupRecord (metarLookup metarData) key hr = Some rec
         ∧ seg = {| seg_left := (λ h, inject_Z h * hourPx)%Q <$> hr;
                    seg_width := hourPx;
                    seg_color := Some (tempToColor (temp_C rec)) |}).
Proof.
  intros key hours.
  unfold Part005.flightCategoryRow, Part005.temperatureRow. fold key.
  set (day := default ∅ (metarLookup metarData !! key)).
  assert (size hours = length (map_to_list day)) as Hsize.
  { rewrite length_map_to_list, <- size_dom. f_equal.
    apply set_eq. intros hr.
    rewrite elem_of_dom. unfold hours.
    rewrite elem_of_list_to_set, list_elem_of_fmap. split.
    - intros (r & -> & [Hk Hin]%list_elem_of_filter).
      assert (is_Some (lookupRecord (metarLookup metarData) key
                         (getHours (local_time r)))) as [r' Hr'].
      { rewrite lookupRecord_metarLookup.
        destruct (last _) as [r0 |] eqn:Hl; [by eexists |].
        apply last_None in Hl. exfalso. apply (elem_of_nil r). rewrite <- Hl.
        apply list_elem_of_filter. split; [| done]. unfold bucket. by rewrite Hk. }
      exists r'. by apply day_entries.
    - intros [r Hr]. apply day_entries, lookupRecord_sound in Hr as (Hin & Hk & Hh).
      exists r. split; [done |]. by apply list_elem_of_filter. }
  assert (∀ hr rec, (hr, rec) ∈ map_to_list day →
            getHours (local_time rec) = hr
            ∧ lookupRecord (metarLookup metarData) key hr = Some rec) as Hent.
  { intros hr rec Hin%elem_of_map_to_list%day_entries.
    split; [| done]. by apply lookupRecord_sound in Hin as (_ & _ & ?). }
  split_and!; [done | done | | | |].
  - by rewrite !length_fmap.
  - by rewrite !length_fmap.
  - intros seg. rewrite list_elem_of_fmap. split.
    + intros (rec & -> & [[hr rec'] [-> Hin]]%list_elem_of_fmap).
      destruct (Hent _ _ Hin) as [Hh Hl]. simpl in *.
      exists hr, rec'. by rewrite Hh.
    + intros (hr & rec & Hl & ->).
      apply day_entries, elem_of_map_to_list in Hl as Hin.
      destruct (Hent _ _ Hin) as [Hh _].
      exists rec. rewrite Hh. split; [done |].
      apply list_elem_of_fmap. by exists (hr, rec).
  - intros seg. rewrite list_elem_of_fmap. split.
    + intros (rec & -> & [[hr rec'] [-> Hin]]%list_elem_of_fmap).
      destruct (Hent _ _ Hin) as [Hh Hl]. simpl in *.
      exists hr, rec'. by rewrite Hh.
    + intros (hr & rec & Hl & ->).
      apply day_entries, elem_of_map_to_list in Hl as Hin.
      destruct (Hent _ _ Hin) as [Hh _].
      exists rec. rewrite Hh. split; [done |].
      apply list_elem_of_fmap. by exists (hr, rec).
Qed.

(** The segments of a weather row, for any way [mk] of colouring them. *)
Lemma weather_row_lookup (metarData : list WeatherRecord) (key : string)
    (mk : WeatherRecord → hourSegment) (i : nat) (seg : hourSegment) :
  (mk <$> (map_to_list (default ∅ (metarLookup metarData !! key))).*2) !! i = Some seg →
  ∃ rec, seg = mk rec
    ∧ (map_to_list (default ∅ (metarLookup metarData !! key))).*1 !! i
      = Some (getHours (local_time rec)).
Proof.
  rewrite !list_lookup_fmap.
  destruct (map_to_list _ !! i) as [[hr rec] |] eqn:Hi; simpl; [| done].
  intros [= <-]. exists rec. split; [done |]. f_equal.
  apply list_elem_of_lookup_2, elem_of_map_to_list, day_entries in Hi.
  by apply lookupRecord_sound in Hi as (_ & _ & ?).
Qed.

Lemma weather_row_positions (metarData : list WeatherRecord) (hourPx : Q)
    (key : string) (mk : WeatherRecord → hourSegment) :
  (∀ rec, seg_width (mk rec) = hourPx
          ∧ seg_left (mk rec) =
            (λ h, inject_Z h * hourPx)%Q <$> getHours (local_time rec)) →
  let row := mk <$> (map_to_list (default ∅ (metarLookup metarData !! key))).*2 in
  ((0 <= hourPx)%Q →
   ∀ seg l, seg ∈ row → seg_left seg = Some l →
     (0 <= l)%Q ∧ (l + seg_width seg <= 24 * hourPx)%Q)
  ∧ ((0 < hourPx)%Q →
     ∀ i j si sj, row !! i = Some si → row !! j = Some sj → i ≠ j →
       match seg_left si, seg_left sj with
       | Some a, Some b => ¬ (a == b)%Q
       | None, None => False
       | _, _ => True
       end).
Proof.
  intros Hmk row. split.
  - intros Hpx seg l [i Hi]%list_elem_of_lookup Hl.
    apply weather_row_lookup in Hi as (rec & -> & _).
    destruct (Hmk rec) as [Hw Hleft]. rewrite Hw. rewrite Hleft in Hl.
    destruct (getHours (local_time rec)) as [h |] eqn:Hh; [| done].
    injection Hl as <-. apply getHours_range in Hh as [H0 H1].
    assert (h <= 23) as H2 by lia.
    rewrite Zle_Qle in H0, H2.
    change (inject_Z 0) with 0%Q in H0. change (inject_Z 23) with 23%Q in H2.
    split; [by apply Qmult_le_0_compat |].
    set (x := inject_Z h) in *. nra.
  - intros Hpx i j si sj Hi Hj Hij.
    apply weather_row_lookup in Hi as (ri & -> & Hki).
    apply weather_row_lookup in Hj as (rj & -> & Hkj).
    assert (getHours (local_time ri) ≠ getHours (local_time rj)) as Hne.
    { intros Heq. apply Hij. rewrite Heq in Hki.
      exact (NoDup_lookup _ i j _
               (NoDup_fst_map_to_list (default ∅ (metarLookup metarData !! key)))
               Hki Hkj). }
    destruct (Hmk ri) as [_ ->], (Hmk rj) as [_ ->].
    destruct (getHours (local_time ri)) as [a |], (getHours (local_time rj)) as [b |];
      simpl; [| done | done | done].
    intros Heq. apply Hne. f_equal.
    apply Qmult_inj_r in Heq; [| lra].
    by apply inject_Z_injective.
Qed.

(** X8. The segments of both weather rows are one hour wide and, for a
    non-negative scale, a segment placed at a valid hour lies inside the
    24-hour day cell; for a positive scale no two segments of a row are placed
    at the same offset. *)
Theorem weather_segments_inside_day (metarData : list WeatherRecord) (hourPx : Q)
    (d : Date.t) :
  (0 < hourPx)%Q →
  let cats := Part005.flightCategoryRow metarData hourPx true d in
  let temps := Part005.temperatureRow metarData hourPx true d in
  (∀ seg, seg ∈ cats ∨ seg ∈ temps → seg_width seg = hourPx)
  ∧ (∀ seg l, seg ∈ cats ∨ seg ∈ temps → seg_left seg = Some l →
       (0 <= l)%Q ∧ (l + seg_width seg <= 24 * hourPx)%Q)
  ∧ (∀ row i j si sj, row = cats ∨ row = temps →
       row !! i = Some si → row !! j = Some sj → i ≠ j →
       match seg_left si, seg_left sj with
       | Some a, Some b => ¬ (a == b)%Q
       | None, None => False
       | _, _ => True
       end).
Proof.
  intros Hpx cats temps.
  pose proof (weather_row_positions metarData hourPx (Date.isoKey d)
    (λ rec, {| seg_left := (λ h, inject_Z h * hourPx)%Q <$> getHours (local_time rec);
               seg_width := hourPx;
               seg_color := flightCategoryColor !! flight_category rec |})
    (λ _, conj eq_refl eq_refl)) as [Hc1 Hc2].
  pose proof (weather_row_positions metarData hourPx (Date.isoKey d)
    (λ rec, {| seg_left := (λ h, inject_Z h * hourPx)%Q <$> getHours (local_time rec);
               seg_width := hourPx;
               seg_color := Some (tempToColor (temp_C rec)) |})
    (λ _, conj eq_refl eq_refl)) as [Ht1 Ht2].
  assert (0 <= hourPx)%Q as Hpx0 by lra.
  split_and!.
  - intros seg [Hs | Hs]; apply list_elem_of_fmap in Hs as (rec & -> & _); done.
  - intros seg l [Hs | Hs]; [by apply Hc1 | by apply Ht1].
  - intros row i j si sj [-> | ->]; [by apply Hc2 | by apply Ht2].
Qed.

Lemma weather_segments_inside_day_witness :
  (0 <= inject_Z 23 * 4)%Q ∧ (inject_Z 23 * 4 + 4 <= 24 * 4)%Q.
Proof.
  pose (rec := {| local_time := "2025-01-01T23:00"; flight_category := "VFR";
                  temp_C := JS.Num 3 |}).
  destruct (weather_segments_inside_day [rec] 4 (Date.make 2025 0 1)) as (_ & Hin & _).
  - reflexivity.
  - apply (Hin {| seg_left := Some (inject_Z 23 * 4)%Q; seg_width := 4%Q;
                  seg_color := Some (tempToColor (JS.Num 3)) |}).
    + right.
      assert (Part005.temperatureRow [rec] 4 true (Date.make 2025 0 1) =
              [{| seg_left := Some (inject_Z 23 * 4)%Q; seg_width := 4%Q;
                  seg_color := Some (tempToColor (JS.Num 3)) |}]) as -> by reflexivity.
      apply list_elem_of_here.
    + reflexivity.
Defined.

(** ** Temperature bands *)

Lemma length_filter_mono {A : Type} (f g : A → bool) (l : list A) :
  (∀ x, f x = true → g x = true) →
  (length (List.filter f l) <= length (List.filter g l))%nat.
Proof.
  intros Hfg. induction l as [| x l IH]; [done |]. simpl.
  destruct (f x) eqn:Hf.
  - rewrite (Hfg x Hf). simpl. lia.
  - destruct (g x); simpl; lia.
Qed.

(** X9. [tempToColor] is an ordered scale: a number is given the band whose
    rank is the number of breakpoints (-30, -10, 0, 10, 20, 30) strictly
    below it, so a warmer temperature never gets a colder band, equal
    temperatures get the same band, and the seven band colours are pairwise
    distinct. *)
Theorem tempToColor_monotone (t1 t2 : Q) :
  temperature_bands !! spec_bandRank t1 = Some (tempToColor (JS.Num t1))
  ∧ ((t1 <= t2)%Q → (spec_bandRank t1 <= spec_bandRank t2)%nat)
  ∧ ((t1 == t2)%Q → tempToColor (JS.Num t1) = tempToColor (JS.Num t2))
  ∧ NoDup temperature_bands.
Proof.
  assert (∀ t, temperature_bands !! spec_bandRank t = Some (tempToColor (JS.Num t)))
    as Hrank.
  { intros t. unfold spec_bandRank, spec_breakpoints, tempToColor. simpl.
    destruct (Qle_bool t (-30)) eqn:H1, (Qle_bool t (-10)) eqn:H2,
             (Qle_bool t 0) eqn:H3, (Qle_bool t 10) eqn:H4,
             (Qle_bool t 20) eqn:H5, (Qle_bool t 30) eqn:H6;
      try reflexivity;
      exfalso;
      repeat match goal with
        | H : Qle_bool _ _ = true |- _ => apply Qle_bool_iff in H
        | H : Qle_bool _ _ = false |- _ => apply Qle_bool_false in H
        end; lra. }
  assert (∀ a b, (a <= b)%Q → (spec_bandRank a <= spec_bandRank b)%nat) as Hmono.
  { intros a b Hab. apply length_filter_mono. intros x.
    rewrite !negb_true_iff, !Qle_bool_false. lra. }
  assert (NoDup temperature_bands) as Hnd.
  { apply (bool_decide_unpack _). by vm_compute. }
  split_and!; [apply Hrank | apply Hmono | | done].
  intros Heq.
  assert (spec_bandRank t1 = spec_bandRank t2) as Hr.
  { apply Nat.le_antisymm; apply Hmono; lra. }
  pose proof (Hrank t1) as H1. rewrite Hr, Hrank in H1. by injection H1.
Qed.

Lemma tempToColor_monotone_witness :
  (spec_bandRank (-5) <= spec_bandRank 12)%nat
  ∧ temperature_bands !! spec_bandRank (-5) = Some (tempToColor (JS.Num (-5))).
Proof.
  destruct (tempToColor_monotone (-5) 12) as (Hr & Hm & _).
  split; [| exact Hr]. apply Hm. vm_compute. discriminate.
Defined.

(** ** Block geometry and the category filter *)







(** X12. In the variants that test [eH < sH] (part_000, part_003), a block
    with well-formed clock codes starts inside the day and is shorter than
    24 hours; its width is zero exactly when its end equals its start, and
    it reaches the end of the day cell or past it exactly when its end is
    strictly before its start. *)
Theorem block_geometry_lt (start end_ : string) (s e : Z * Z) :
  wf_code start → wf_code end_ →
  parseCode start = Some s → parseCode end_ = Some e →
  ∃ sH eH,
    Part000.blockHours start end_ = Some (sH, eH)
    ∧ Part003.blockHours start end_ = Some (sH, eH)
    ∧ (0 <= sH < 24)%Q ∧ (0 <= eH - sH < 24)%Q ∧ (eH < 48)%Q
    ∧ ((eH - sH == 0)%Q ↔ (fracHour e == fracHour s)%Q)
    ∧ ((24 <= eH)%Q ↔ (fracHour e < fracHour s)%Q)
    ∧ ∀ hourPx, (0 < hourPx)%Q →
        (0 <= sH * hourPx < 24 * hourPx)%Q
        ∧ (0 <= (eH - sH) * hourPx < 24 * hourPx)%Q.
Proof.
  intros Wfs Wfe Hs He.
  pose proof (wf_code_range _ _ Wfs Hs) as Rs.
  pose proof (wf_code_range _ _ Wfe He) as Re.
  destruct (blockHours_lt_spec start end_ s e Hs He) as [H0 H3].
  rewrite H0 in H3.
  eexists _, _. split; [exact H0 |]. split; [exact H3 |].
  set (x := fracHour s) in *. set (y := fracHour e) in *.
  destruct (JS.lt_bool y x) eqn:Hlt.
  - apply lt_bool_true in Hlt.
    split_and!; try lra.
    intros px Hpx. split; split; nra.
  - apply lt_bool_false in Hlt.
    split_and!; try lra.
    intros px Hpx. split; split; nra.
Qed.

Lemma block_geometry_lt_witness :
  ∃ sH eH,
    Part000.blockHours "2330" "0130" = Some (sH, eH)
    ∧ (0 <= eH - sH < 24)%Q ∧ (24 <= eH)%Q.
Proof.
  destruct (block_geometry_lt "2330" "0130" (23, 30) (1, 30)
              wf_code_2330 wf_code_0130 eq_refl eq_refl)
    as (sH & eH & Hh & _ & _ & Hw & _ & _ & Hout & _).
  exists sH, eH. split; [exact Hh |]. split; [exact Hw |].
  apply Hout. vm_compute. reflexivity.
Defined.



Lemma spec_visitedBucket_date (date : Date.t) (sMin k : Z) :
  (spec_visitedBucket date sMin k).1 = date
  ∨ (spec_visitedBucket date sMin k).1 = date + 1.
Proof.
  unfold spec_visitedBucket. simpl.
  destruct (24 <=? (sMin + 60 * k) / 60); [by right | by left].
Qed.

(** X14. A block is drawn only where weather is indexed: when the index
    holds no record for the date of the block nor for the following date (in
    particular when the weather dataset is empty), [renderBlocks] of part_005
    and of App (19).js return [null] for the block whatever the category
    toggles are, all enabled included. *)
Theorem no_weather_no_block (metarData : list WeatherRecord) (hourPx : Q)
    (catFilters : gmap string bool) (tail : string) (date : Date.t)
    (start end_ : string) :
  is_Some (parseCode start) → is_Some (parseCode end_) →
  metarLookup metarData !! Date.isoKey date = None →
  metarLookup metarData !! Date.isoKey (date + 1) = None →
  Part005.renderBlock metarData hourPx catFilters tail date (start, end_) = Some Null
  ∧ App19.renderBlock metarData hourPx catFilters tail date (start, end_) = Some Null.
Proof.
  intros Hs He Hd0 Hd1.
  destruct (renderBlock_spec metarData hourPx catFilters tail date start end_ Hs He)
    as (el & H5 & H19 & Hiff).
  rewrite H5, H19.
  destruct el as [| l w c]; [done | exfalso].
  destruct (proj1 Hiff) as (cat & _ & Ht); [done |].
  destruct Hs as [s Hs], He as [e He].
  destruct (blockHasCategory_spec (metarLookup metarData) date start end_ cat s e Hs He)
    as (b & Hb & Hbiff).
  rewrite Hb in Ht. injection Ht as ->.
  destruct (proj1 Hbiff eq_refl) as (k & rec & _ & _ & Hl & _).
  unfold lookupRecord in Hl.
  destruct (spec_visitedBucket_date date (minuteOfDay s) k) as [Hk | Hk];
    rewrite Hk in Hl; [rewrite Hd0 in Hl | rewrite Hd1 in Hl]; discriminate Hl.
Qed.

Lemma no_weather_no_block_witness :
  let catFilters : gmap string bool :=
    <["LIFR" := true]> (<["IFR" := true]> (<["MVFR" := true]> {[ "VFR" := true ]})) in
  Part005.renderBlock [] 4 catFilters "N65620" (Date.make 2025 0 15) ("0900", "1030")
  = Some Null.
Proof.
  intros catFilters.
  apply (no_weather_no_block [] 4 catFilters "N65620" (Date.make 2025 0 15)
           "0900" "1030"); by (eexists || reflexivity).
Defined.

(** X15. The category filter is monotone in the toggles: a block that is
    drawn under one set of toggles is drawn, with the same geometry, under
    every set that enables at least the same categories; and with no
    category enabled every block is [null]. *)
Theorem filter_monotone (metarData : list WeatherRecord) (hourPx : Q)
    (catFilters catFilters' : gmap string bool) (tail : string) (date : Date.t)
    (start end_ : string) :
  is_Some (parseCode start) → is_Some (parseCode end_) →
  (∀ c, catFilters !! c = Some true → catFilters' !! c = Some true) →
  (∀ el, el ≠ Null →
     Part005.renderBlock metarData hourPx catFilters tail date (start, end_) = Some el →
     Part005.renderBlock metarData hourPx catFilters' tail date (start, end_) = Some el)
  ∧ ((∀ c, catFilters !! c ≠ Some true) →
     Part005.renderBlock metarData hourPx catFilters tail date (start, end_) = Some Null).
Proof.
  intros Hs He Hsub.
  destruct (renderBlock_spec metarData hourPx catFilters tail date start end_ Hs He)
    as (el1 & H1 & _ & Hiff1).
  destruct (renderBlock_spec metarData hourPx catFilters' tail date start end_ Hs He)
    as (el2 & H2 & _ & Hiff2).
  split.
  - intros el Hnn Hel. rewrite H1 in Hel. injection Hel as <-.
    rewrite H2. f_equal.
    assert (el2 ≠ Null) as Hnn2.
    { apply Hiff2. destruct (proj1 Hiff1 Hnn) as (c & Hon & Ht).
      exists c. split; [by apply Hsub | done]. }
    destruct (renderBlock_filtered metarData hourPx catFilters tail date start end_ el1
                (or_introl H1)) as [-> | (sH & eH & Hh & ->)]; [done |].
    destruct (renderBlock_filtered metarData hourPx catFilters' tail date start end_ el2
                (or_introl H2)) as [-> | (sH' & eH' & Hh' & ->)]; [done |].
    rewrite Hh in Hh'. by injection Hh' as <- <-.
  - intros Hoff. rewrite H1. f_equal.
    destruct el1 as [| l w c]; [done | exfalso].
    destruct (proj1 Hiff1) as (c' & Hon & _); [done |].
    by apply (Hoff c').
Qed.

Lemma filter_monotone_witness :
  Part005.renderBlock [] 4 ∅ "N65620" (Date.make 2025 0 15) ("0900", "1030")
  = Some Null.
Proof.
  destruct (filter_monotone [] 4 ∅ ∅ "N65620" (Date.make 2025 0 15) "0900" "1030")
    as [_ Hoff]; [by eexists | by eexists | done |].
  apply Hoff. intros c. by rewrite lookup_empty.
Defined.

Lemma wf_code_minutes (code : string) (hm : Z * Z) :
  wf_code code → parseCode code = Some hm → 0 <= minuteOfDay hm < 1440.
Proof.
  intros (_ & h & m & Hp & Hh & Hm) Hs. rewrite Hs in Hp. injection Hp as ->.
  unfold minuteOfDay. simpl. lia.
Qed.

(** X16. For well-formed clock codes the membership test examines at most
    24 hours, all of them hours 0 to 23 of the date of the block or of the
    following date, and its answer depends on the index only through the
    day of the block and, when the end is at or before the start, the
    following day: a block that ends after it starts never consults another
    day's weather. *)
Theorem blockHasCategory_reads_two_days
    (m1 m2 : gmap string (gmap (option Z) WeatherRecord)) (date : Date.t)
    (start end_ cat : string) (s e : Z * Z) :
  wf_code start → wf_code end_ →
  parseCode start = Some s → parseCode end_ = Some e →
  m1 !! Date.isoKey date = m2 !! Date.isoKey date →
  (minuteOfDay e <= minuteOfDay s →
   m1 !! Date.isoKey (date + 1) = m2 !! Date.isoKey (date + 1)) →
  let sMin := minuteOfDay s in
  let eMin := spec_endMinute sMin (minuteOfDay e) in
  Part005.blockHasCategory m1 date start end_ cat
  = Part005.blockHasCategory m2 date start end_ cat
  ∧ ∀ k, 0 <= k → sMin + 60 * k < eMin →
      k < 24
      ∧ 0 <= (spec_visitedBucket date sMin k).2 < 24
      ∧ ((spec_visitedBucket date sMin k).1 = date
         ∨ (spec_visitedBucket date sMin k).1 = date + 1
           ∧ minuteOfDay e <= minuteOfDay s).
Proof.
  intros Wfs Wfe Hs He Hd0 Hd1 sMin eMin.
  pose proof (wf_code_minutes _ _ Wfs Hs) as Rs.
  pose proof (wf_code_minutes _ _ Wfe He) as Re.
  assert (∀ k, 0 <= k → sMin + 60 * k < eMin →
            k < 24
            ∧ 0 <= (spec_visitedBucket date sMin k).2 < 24
            ∧ ((spec_visitedBucket date sMin k).1 = date
               ∨ (spec_visitedBucket date sMin k).1 = date + 1
                 ∧ minuteOfDay e <= minuteOfDay s)) as Hvisit.
  { intros k Hk Hb. unfold eMin, spec_endMinute in Hb. fold sMin in Rs.
    unfold spec_visitedBucket.
    pose proof (Z.div_mod (sMin + 60 * k) 60 ltac:(lia)) as Hdm.
    pose proof (Z.mod_pos_bound (sMin + 60 * k) 60 ltac:(lia)) as Hr.
    set (hr := (sMin + 60 * k) / 60) in *.
    pose proof (Z.mod_pos_bound hr 24 ltac:(lia)) as Hr24.
    destruct (minuteOfDay e <=? sMin) eqn:Hcross.
    - apply Z.leb_le in Hcross.
      destruct (24 <=? hr) eqn:Hhr; simpl.
      + split_and!; [lia | lia | lia | right; by split].
      + apply Z.leb_gt in Hhr. split_and!; [lia | lia | lia | by left].
    - apply Z.leb_gt in Hcross.
      assert (hr < 24) as Hlt by lia.
      apply Z.leb_gt in Hlt as Hhr. rewrite Hhr. simpl.
      split_and!; [lia | lia | lia | by left]. }
  split; [| exact Hvisit].
  destruct (blockHasCategory_spec m1 date start end_ cat s e Hs He) as (b1 & -> & Hiff1).
  destruct (blockHasCategory_spec m2 date start end_ cat s e Hs He) as (b2 & -> & Hiff2).
  f_equal. apply eq_true_iff_eq. rewrite Hiff1, Hiff2.
  assert (∀ k, 0 <= k → sMin + 60 * k < eMin → ∀ hr,
            lookupRecord m1 (Date.isoKey (spec_visitedBucket date sMin k).1) hr
            = lookupRecord m2 (Date.isoKey (spec_visitedBucket date sMin k).1) hr)
    as Hsame.
  { intros k Hk Hb hr. unfold lookupRecord.
    destruct (Hvisit k Hk Hb) as (_ & _ & [-> | [-> Hcross]]);
      [by rewrite Hd0 | by rewrite Hd1]. }
  unfold spec_visitedMatch. fold sMin eMin.
  split; intros (k & rec & Hk & Hb & Hl & Hc); exists k, rec;
    (split_and!; [done | done | | done]).
  - by rewrite <- Hsame.
  - by rewrite Hsame.
Qed.

Lemma blockHasCategory_reads_two_days_witness :
  let today := [{| local_time := "2025-01-15T09:00"; flight_category := "IFR";
                   temp_C := JS.Null |}] in
  let later := {| local_time := "2025-01-16T00:00"; flight_category := "VFR";
                  temp_C := JS.Null |} in
  Part005.blockHasCategory (metarLookup today) (Date.make 2025 0 15) "0900" "1030" "VFR"
  = Part005.blockHasCategory (metarLookup (today ++ [later])) (Date.make 2025 0 15)
      "0900" "1030" "VFR".
Proof.
  intros today later.
  assert (wf_code "0900") as W1.
  { split; [reflexivity |]. exists 9, 0. split; [reflexivity | lia]. }
  assert (wf_code "1030") as W2.
  { split; [reflexivity |]. exists 10, 30. split; [reflexivity | lia]. }
  apply (blockHasCategory_reads_two_days _ _ (Date.make 2025 0 15) "0900" "1030" "VFR"
           (9, 0) (10, 30) W1 W2 eq_refl eq_refl).
  - reflexivity.
  - intros H. vm_compute in H. by destruct H.
Defined.

(** ** Toggles *)

(** X17. [toggleAC] flips the visibility of one aircraft and leaves the
    others alone: after it the aircraft reads as the negation of what it read
    before, a second toggle restores every reading (and the very same state
    when the aircraft had an entry), the cells of the other aircraft are
    unchanged, and the cell of an aircraft just hidden is empty.
    [toggleCat] updates the category toggles in the same way. *)
Theorem toggleAC_flips_one (data : gmap string Aircraft)
    (metarData : list WeatherRecord) (hourPx : Q)
    (visible catFilters : gmap string bool) (t t' : string) (d : Date.t) :
  default false (Part005.toggleAC t visible !! t) = negb (default false (visible !! t))
  ∧ default false (Part005.toggleAC t (Part005.toggleAC t visible) !! t')
    = default false (visible !! t')
  ∧ (is_Some (visible !! t) →
     Part005.toggleAC t (Part005.toggleAC t visible) = visible)
  ∧ (t' ≠ t →
     Part005.aircraftCell data metarData hourPx (Part005.toggleAC t visible)
       catFilters t' d
     = Part005.aircraftCell data metarData hourPx visible catFilters t' d)
  ∧ (default false (visible !! t) = true →
     Part005.aircraftCell data metarData hourPx (Part005.toggleAC t visible)
       catFilters t d = Some [])
  ∧ Part005.toggleCat t catFilters = Part005.toggleAC t catFilters.
Proof.
  unfold Part005.toggleAC, Part005.toggleCat, Part005.aircraftCell.
  split_and!.
  - by rewrite lookup_insert_eq.
  - rewrite insert_insert_eq, lookup_insert_eq. simpl. rewrite negb_involutive.
    destruct (decide (t = t')) as [-> | Hne].
    + by rewrite lookup_insert_eq.
    + by rewrite lookup_insert_ne.
  - intros [b Hb]. rewrite insert_insert_eq, lookup_insert_eq, Hb. simpl.
    rewrite negb_involutive. by apply insert_id.
  - intros Hne. by rewrite lookup_insert_ne.
  - intros Hvis. rewrite lookup_insert_eq. simpl. by rewrite Hvis.
  - done.
Qed.

Lemma toggleAC_flips_one_witness :
  let visible : gmap string bool := {[ "N65620" := true ]} in
  Part005.toggleAC "N65620" (Part005.toggleAC "N65620" visible) = visible.
Proof.
  intros visible.
  destruct (toggleAC_flips_one ∅ [] 4 visible ∅ "N65620" "N65620" 0)
    as (_ & _ & Hback & _).
  apply Hback. by eexists.
Defined.

(** X18. The [toggle] of part_004 on the list of hidden aircraft: the
    toggled aircraft is hidden afterwards exactly when it was not hidden
    before, every other aircraft keeps its state, a list without duplicates
    stays without duplicates, and an aircraft that has just been hidden
    draws no block. *)
Theorem hidden_toggle_flips_one (hidden : list string) (tail x : string)
    (info : Aircraft) (dKey : string) :
  (tail ∈ Part004.toggle tail hidden ↔ tail ∉ hidden)
  ∧ (x ≠ tail → (x ∈ Part004.toggle tail hidden ↔ x ∈ hidden))
  ∧ (NoDup hidden → NoDup (Part004.toggle tail hidden))
  ∧ (tail ∉ hidden →
     Part004.renderTail (Part004.toggle tail hidden) tail info dKey = Some [])
  ∧ (x ≠ tail →
     Part004.renderTail (Part004.toggle tail hidden) x info dKey
     = Part004.renderTail hidden x info dKey).
Proof.
  assert (tail ∈ Part004.toggle tail hidden ↔ tail ∉ hidden) as Hflip.
  { unfold Part004.toggle. case_decide as Hin.
    - rewrite list_elem_of_filter. split; [by intros [Hne _] | done].
    - rewrite elem_of_app, list_elem_of_singleton. split; [done | by right]. }
  assert (x ≠ tail → (x ∈ Part004.toggle tail hidden ↔ x ∈ hidden)) as Hother.
  { intros Hne. unfold Part004.toggle. case_decide as Hin.
    - rewrite list_elem_of_filter. split; [by intros [_ ?] | by split].
    - rewrite elem_of_app, list_elem_of_singleton.
      split; [by intros [? | ?] | by left]. }
  split_and!; [done | done | | |].
  - intros Hnd. unfold Part004.toggle. case_decide as Hin.
    + by apply NoDup_filter.
    + apply NoDup_app. split_and!; [done | | apply NoDup_singleton].
      intros y Hy ->%list_elem_of_singleton. done.
  - intros Hnin. unfold Part004.renderTail.
    by rewrite decide_True by by apply Hflip.
  - intros Hne. unfold Part004.renderTail.
    destruct (decide (x ∈ hidden)) as [Hin | Hnin].
    + by rewrite decide_True by by apply Hother.
    + rewrite decide_False; [done |]. by rewrite Hother.
Qed.

Lemma hidden_toggle_flips_one_witness :
  Part004.renderTail (Part004.toggle "N65620" []) "N65620"
    {| blocksByDate := {[ "2025-01-15" := [("0900", "1030")] ]} |} "2025-01-15"
  = Some [].
Proof.
  destruct (hidden_toggle_flips_one [] "N65620" "N65620"
              {| blocksByDate := {[ "2025-01-15" := [("0900", "1030")] ]} |}
              "2025-01-15") as (_ & _ & _ & Hhide & _).
  apply Hhide. apply not_elem_of_nil.
Defined.

(** ** The day cell of part_004 *)




(** ** Which hours the membership test examines *)

Lemma visited_hours_arith (sMin eMin t : Z) :
  sMin <= t < eMin →
  (∃ k, 0 <= k ∧ sMin + 60 * k < eMin ∧ (sMin + 60 * k) / 60 = t / 60) ↔
  (t / 60 < (eMin - 1) / 60 ∨ ¬ (0 < eMin mod 60 <= sMin mod 60)).
Proof.
  intros Ht.
  pose proof (Z.div_mod sMin 60 ltac:(lia)) as Hs.
  pose proof (Z.mod_pos_bound sMin 60 ltac:(lia)) as Hsr.
  pose proof (Z.div_mod eMin 60 ltac:(lia)) as He.
  pose proof (Z.mod_pos_bound eMin 60 ltac:(lia)) as Her.
  pose proof (Z.div_mod (eMin - 1) 60 ltac:(lia)) as He1.
  pose proof (Z.mod_pos_bound (eMin - 1) 60 ltac:(lia)) as He1r.
  pose proof (Z.div_mod t 60 ltac:(lia)) as Htd.
  pose proof (Z.mod_pos_bound t 60 ltac:(lia)) as Htr.
  split.
  - intros (k & Hk & Hb & Hhr).
    pose proof (Z.div_mod (sMin + 60 * k) 60 ltac:(lia)) as Hkd.
    pose proof (Z.mod_pos_bound (sMin + 60 * k) 60 ltac:(lia)) as Hkr.
    assert ((sMin + 60 * k) mod 60 = sMin mod 60) as Hm.
    { replace (sMin + 60 * k) with (sMin + k * 60) by lia. by rewrite Z.mod_add by lia. }
    rewrite Hm, Hhr in Hkd.
    destruct (decide (t / 60 < (eMin - 1) / 60)); [by left | right]. lia.
  - intros Hcase. exists (t / 60 - sMin / 60).
    assert ((sMin + 60 * (t / 60 - sMin / 60)) / 60 = t / 60) as Hhr.
    { replace (sMin + 60 * (t / 60 - sMin / 60))
        with (sMin mod 60 + (t / 60) * 60) by lia.
      rewrite Z.div_add by lia. rewrite Z.div_small by lia. lia. }
    split_and!; [lia | | done].
    destruct Hcase as [Hlt | Hskip]; lia.
Qed.

(** X20. Which touched hours [blockHasCategory] examines, exactly: for
    clock codes that parse, the test is true if and only if a record of the
    target category is indexed at an hour touched by the interval that is
    either before the hour of the interval's last minute or that last hour
    itself when the end minute-of-hour is zero or after the start
    minute-of-hour.  The only touched hour that can go unexamined is the
    last one. *)
Theorem blockHasCategory_examined_hours
    (m : gmap string (gmap (option Z) WeatherRecord)) (date : Date.t)
    (start end_ cat : string) (s e : Z * Z) :
  parseCode start = Some s → parseCode end_ = Some e →
  let sMin := minuteOfDay s in
  let eMin := spec_endMinute sMin (minuteOfDay e) in
  ∃ b, Part005.blockHasCategory m date start end_ cat = Some b
    ∧ (b = true ↔
       ∃ t rec,
         sMin <= t < eMin
         ∧ (t / 60 < (eMin - 1) / 60 ∨ ¬ (0 < eMin mod 60 <= sMin mod 60))
         ∧ lookupRecord m (Date.isoKey (spec_visitedBucket date t 0).1)
             (Some (spec_visitedBucket date t 0).2) = Some rec
         ∧ flight_category rec = cat).
Proof.
  intros Hs He sMin eMin.
  destruct (blockHasCategory_spec m date start end_ cat s e Hs He) as (b & Hb & Hiff).
  exists b. split; [done |]. rewrite Hiff. unfold spec_visitedMatch. fold sMin eMin.
  assert (∀ t1 k1 t2 k2, (t1 + 60 * k1) / 60 = (t2 + 60 * k2) / 60 →
            spec_visitedBucket date t1 k1 = spec_visitedBucket date t2 k2) as Hbucket.
  { intros t1 k1 t2 k2 Heq. unfold spec_visitedBucket. by rewrite Heq. }
  split.
  - intros (k & rec & Hk & Hlt & Hl & Hc).
    exists (sMin + 60 * k), rec.
    split; [lia |]. split.
    + apply (visited_hours_arith sMin eMin (sMin + 60 * k)); [lia |].
      by exists k.
    + rewrite (Hbucket (sMin + 60 * k) 0 sMin k); [done |]. f_equal. lia.
  - intros (t & rec & Ht & Hcase & Hl & Hc).
    apply (visited_hours_arith sMin eMin t Ht) in Hcase as (k & Hk & Hlt & Hhr).
    exists k, rec. split_and!; [done | done | | done].
    rewrite (Hbucket sMin k t 0); [done |]. rewrite Hhr. f_equal. lia.
Qed.

Lemma blockHasCategory_examined_hours_witness :
  let m := metarLookup [{| local_time := "2025-01-16T01:00";
                           flight_category := "VFR"; temp_C := JS.Null |}] in
  Part005.blockHasCategory m (Date.make 2025 0 15) "2300" "0130" "VFR" = Some true.
Proof.
  intros m.
  destruct (blockHasCategory_examined_hours m (Date.make 2025 0 15)
              "2300" "0130" "VFR" (23, 0) (1, 30) eq_refl eq_refl)
    as (b & -> & Hiff).
  f_equal. apply Hiff. exists 1500. eexists.
  split; [split; [discriminate | reflexivity] |].
  split; [right; intros [_ H]; by vm_compute in H |].
  split; reflexivity.
Defined.

(** ** The unfiltered timeline against the filtered one *)

Lemma mapM_unfiltered (hourPx : Q) (tail : string) (blocks : list (string * string)) :
  Forall (λ b : string * string,
            is_Some (parseCode b.1) ∧ is_Some (parseCode b.2)) blocks →
  ∃ els,
    mapM (Part000.renderBlock hourPx tail) blocks = Some els
    ∧ mapM (Part003.renderBlock hourPx tail) blocks = Some els
    ∧ Forall2 (λ (b : string * string) el,
         ∃ s e w, parseCode b.1 = Some s ∧ parseCode b.2 = Some e
           ∧ el = Div (fracHour s * hourPx)%Q w (tailColors !! tail)) blocks els.
Proof.
  induction 1 as [| [start end_] blocks [[s Hs] [e He]] _ (els & H0 & H3 & Hall)].
  - exists []. by split_and!.
  - destruct (blockHours_lt_spec start end_ s e Hs He) as [Hh0 Hh3].
    destruct (renderBlock_unfiltered hourPx tail start end_) as [R0 R3].
    rewrite Hh3, Hh0 in R3. rewrite Hh0 in R0.
    eexists (_ :: els). rewrite !mapM_cons, R0, R3, H0, H3. simpl.
    split_and!; [done | done |]. constructor; [| done].
    exists s, e. eexists. by split_and!.
Qed.

(** X21. The unfiltered [renderBlocks] of part_000 and part_003 draws
    every block of the date, in order and never [null]; and what the
    filtered [renderBlocks] of part_005 draws is a selection of it: each of
    its elements is [null] or a [<div>] with the same left edge and colour as
    the unfiltered element at the same position. *)
Theorem unfiltered_draws_every_block (data : gmap string Aircraft)
    (metarData : list WeatherRecord) (hourPx : Q) (catFilters : gmap string bool)
    (tail : string) (date : Date.t) (ac : Aircraft) :
  data !! tail = Some ac →
  let blocks := default [] (blocksByDate ac !! Date.isoKey date) in
  Forall (λ b : string * string,
            is_Some (parseCode b.1) ∧ is_Some (parseCode b.2)) blocks →
  ∃ els els5,
    Part000.renderBlocks data hourPx tail date = Some els
    ∧ Part003.renderBlocks data hourPx tail date = Some els
    ∧ Part005.renderBlocks data metarData hourPx catFilters tail date = Some els5
    ∧ length els = length blocks ∧ length els5 = length blocks
    ∧ Forall (λ el, el ≠ Null) els
    ∧ ∀ i el5, els5 !! i = Some el5 →
        el5 = Null
        ∨ ∃ l w w0 c, el5 = Div l w c ∧ els !! i = Some (Div l w0 c).
Proof.
  intros Hac blocks Hparse.
  destruct (mapM_unfiltered hourPx tail blocks Hparse) as (els & H0 & H3 & Hall).
  destruct (mapM_renderBlock metarData hourPx catFilters tail date blocks Hparse)
    as (els5 & H5 & _ & Hall5).
  exists els, els5.
  unfold Part000.renderBlocks, Part003.renderBlocks, Part005.renderBlocks.
  rewrite Hac. simpl. fold blocks.
  split_and!; [done | done | done | | | |].
  - symmetry. by eapply Forall2_length.
  - symmetry. by eapply Forall2_length.
  - apply Forall_forall. intros el [i Hi]%list_elem_of_lookup.
    destruct (Forall2_lookup_r _ _ _ _ _ Hall Hi) as (b & _ & s & e & w & _ & _ & ->).
    done.
  - intros i el5 Hi5.
    apply mapM_Some in H5.
    destruct (Forall2_lookup_r _ _ _ _ _ H5 Hi5) as ([start end_] & Hb & Hr5).
    destruct (Forall2_lookup_l _ _ _ _ _ Hall Hb) as (el & Hel & s & e & w & Hs & He & ->).
    destruct (renderBlock_filtered metarData hourPx catFilters tail date start end_ el5
                (or_introl Hr5)) as [-> | (sH & eH & Hh & ->)]; [by left | right].
    simpl in Hs, He.
    destruct (blockHours_le_spec start end_ s e Hs He) as [Hle _].
    rewrite Hle in Hh. injection Hh as <- <-.
    eexists _, _, _, _. by split.
Qed.

Lemma unfiltered_draws_every_block_witness :
  let ac := {| blocksByDate := {[ "2025-01-15" := [("0900", "1030")] ]} |} in
  let data : gmap string Aircraft := {[ "N65620" := ac ]} in
  ∃ els, Part000.renderBlocks data 4 "N65620" (Date.make 2025 0 15) = Some els
         ∧ length els = 1%nat.
Proof.
  intros ac data.
  destruct (unfiltered_draws_every_block data [] 4 ∅ "N65620" (Date.make 2025 0 15)
              ac eq_refl) as (els & els5 & H0 & _ & _ & Hlen & _).
  { vm_compute. constructor; [| constructor]. split; by eexists. }
  exists els. by split.
Defined.
